(** * EventChatBotBackend: conversation state and personalization engine

    A shallow embedding of the decision logic of the chatbot backend:

    - [services/analysis_service.py]: the keyword fallbacks of the intent,
      sentiment and interest classifiers;
    - [services/conversation_stage_service.py]: the stage classifier, its
      rule-based fallback and the stage transitions;
    - [services/proactive_questioning_service.py]: the gate that decides
      whether a proactive question is appended to a reply;
    - [services/user_profile_db_service.py]: interest and preference upserts,
      the profile read path, personalized recommendations and the
      cross-session merge.

    Python [str] values are sequences of Unicode code points, [datetime]
    values are integer time stamps, and the ORM session is an explicit
    store of rows that every operation receives and returns.  Confidences,
    which the code compares, copies and raises by 0.1 up to 1, are
    idealised as rationals; satisfaction scores, which the merge adds up
    and divides, are binary64 numbers with the rounding of every
    operation. *)

From Stdlib Require Import QArith Qminmax Lqa PrimFloat.
From stdpp Require Import gmap list sorting strings.

(** ** Python text *)

Module Py.

(** A Python [str]: its code points. *)
Definition pystr := list N.

(** Python source literals are written as UTF-8 text and decoded here. *)
Fixpoint utf8_decode (bs : list N) : pystr :=
  match bs with
  | [] => []
  | b0 :: r0 =>
    if (b0 <? 128)%N then b0 :: utf8_decode r0
    else match r0 with
    | [] => []
    | b1 :: r1 =>
      if (b0 <? 224)%N
      then ((b0 - 192) * 64 + (b1 - 128))%N :: utf8_decode r1
      else match r1 with
      | [] => []
      | b2 :: r2 =>
        if (b0 <? 240)%N
        then ((b0 - 224) * 4096 + (b1 - 128) * 64 + (b2 - 128))%N
               :: utf8_decode r2
        else match r2 with
        | [] => []
        | b3 :: r3 =>
          ((b0 - 240) * 262144 + (b1 - 128) * 4096
           + (b2 - 128) * 64 + (b3 - 128))%N :: utf8_decode r3
        end
      end
    end
  end.

Definition py (s : string) : pystr :=
  utf8_decode ((λ b, N.of_nat (Byte.to_nat b)) <$> String.list_byte_of_string s).

(** [str.isspace] of one code point (the set used by [strip] and [split]). *)
Definition is_space (c : N) : bool :=
  ((9 <=? c) && (c <=? 13) || (28 <=? c) && (c <=? 32)
   || (c =? 133) || (c =? 160) || (c =? 5760)
   || (8192 <=? c) && (c <=? 8202)
   || (c =? 8232) || (c =? 8233) || (c =? 8239) || (c =? 8287)
   || (c =? 12288))%N.

Fixpoint lstrip (s : pystr) : pystr :=
  match s with
  | [] => []
  | c :: s' => if is_space c then lstrip s' else s
  end.

(** [s.strip()] *)
Definition strip (s : pystr) : pystr := reverse (lstrip (reverse (lstrip s))).

(** [s.split()]: maximal runs of non-blank code points. [cur] is the run
    being read, most recent code point first. *)
Fixpoint split_from (cur : pystr) (s : pystr) : list pystr :=
  match s with
  | [] => match cur with [] => [] | _ => [reverse cur] end
  | c :: s' =>
    if is_space c
    then match cur with
         | [] => split_from [] s'
         | _ => reverse cur :: split_from [] s'
         end
    else split_from (c :: cur) s'
  end.

Definition split (s : pystr) : list pystr := split_from [] s.

Fixpoint starts_with (p s : pystr) : bool :=
  match p, s with
  | [], _ => true
  | _ :: _, [] => false
  | a :: p', b :: s' => (a =? b)%N && starts_with p' s'
  end.

(** [needle in hay] on strings. *)
Fixpoint contains (needle hay : pystr) : bool :=
  starts_with needle hay
  || match hay with
     | [] => false
     | _ :: hay' => contains needle hay'
     end.

(** [any(keyword in text for keyword in keywords)] *)
Definition any_in (text : pystr) (keywords : list pystr) : bool :=
  existsb (λ keyword, contains keyword text) keywords.

(** [str.lower] restricted to Basic Latin: the letters A-Z are mapped to
    a-z and every other code point is kept.  It coincides with [str.lower]
    on text whose cased letters are all Basic Latin (CJK text has no case).
    The services below take the lower-casing function as a parameter; this
    one instantiates it on concrete inputs. *)
Definition ascii_lower (s : pystr) : pystr :=
  (λ c, if (65 <=? c) && (c <=? 90) then c + 32 else c)%N <$> s.

(** A JSON value found under a key of a message: a string, or anything
    else ([None], a number, a list, ...), on which [.lower()] raises. *)
Inductive pyval :=
  | PStr (s : pystr)
  | PNonStr.

#[global] Instance pyval_eq_dec : EqDecision pyval.
Proof. solve_decision. Defined.

(** One entry of a chat history: a dict read through [msg.get("role")] and
    [msg.get("content", "")]; [None] is a missing key. *)
Record message := Message {
  role : option pyval;
  content : option pyval
}.

Definition user_role : pystr := py "user".
Definition assistant_role : pystr := py "assistant".

(** [msg.get("role") == r] *)
Definition has_role (r : pystr) (msg : message) : Prop :=
  role msg = Some (PStr r).

#[global] Instance has_role_dec r msg : Decision (has_role r msg).
Proof. unfold has_role. apply _. Defined.

(** Comparisons of floats, decided on the rationals that stand for them. *)
#[global] Instance Qlt_decision (x y : Q) : Decision (x < y)%Q.
Proof. unfold Qlt. apply _. Defined.

#[global] Instance Qle_decision (x y : Q) : Decision (x <= y)%Q.
Proof. unfold Qle. apply _. Defined.

(** [min(a, b)] and [max(a, b)]: the first argument wins a tie. *)
Definition py_min (a b : Q) : Q := if decide (b < a)%Q then b else a.
Definition py_max (a b : Q) : Q := if decide (a < b)%Q then b else a.



(** [l[-n:]] for [n > 0] *)
Definition last_n {A} (n : nat) (l : list A) : list A :=
  drop (length l - n) l.

End Py.

Import Py.

(** ** Intent fallback ([IntentAnalysisService]) *)

Module Intent.
Section WithLower.

(** [str.lower] *)
Variable lower : pystr → pystr.

Definition search_keywords : list pystr :=
  py <$> ["找"; "搜尋"; "查找"; "活動"; "展覽"; "音樂會"; "講座"; "課程"; "推薦"].
Definition detail_keywords : list pystr :=
  py <$> ["詳情"; "詳細"; "資訊"; "介紹"; "說明"].
Definition analysis_keywords : list pystr :=
  py <$> ["分析"; "統計"; "趨勢"; "報告"].
Definition recommendation_keywords : list pystr :=
  py <$> ["推薦"; "建議"; "適合"].
Definition greeting_keywords : list pystr :=
  py <$> ["你好"; "哈囉"; "嗨"; "hello"; "hi"].
Definition goodbye_keywords : list pystr :=
  py <$> ["再見"; "掰掰"; "bye"; "goodbye"].

(** [IntentAnalysisService._fallback_intent_analysis] *)
Definition _fallback_intent_analysis (message : pystr) : pystr :=
  let message_lower := lower message in
  if any_in message_lower search_keywords then py "search_events"
  else if any_in message_lower detail_keywords then py "get_event_details"
  else if any_in message_lower analysis_keywords then py "analyze_trends"
  else if any_in message_lower recommendation_keywords
       then py "get_recommendations"
  else if any_in message_lower greeting_keywords then py "greeting"
  else if any_in message_lower goodbye_keywords then py "goodbye"
  else py "other".

(** The reference priority definition of the specification: the keyword
    sets in their fixed order, each with the intent it stands for; the
    first set with a keyword occurring in the lower-cased message decides,
    and no match is [other]. *)
Definition intent_priority : list (list pystr * pystr) :=
  [ (search_keywords, py "search_events");
    (detail_keywords, py "get_event_details");
    (analysis_keywords, py "analyze_trends");
    (recommendation_keywords, py "get_recommendations");
    (greeting_keywords, py "greeting");
    (goodbye_keywords, py "goodbye") ].

Fixpoint first_match (text : pystr) (table : list (list pystr * pystr))
    (otherwise : pystr) : pystr :=
  match table with
  | [] => otherwise
  | (keywords, label) :: table' =>
    if any_in text keywords then label else first_match text table' otherwise
  end.

Definition reference_intent (message : pystr) : pystr :=
  first_match (lower message) intent_priority (py "other").

End WithLower.
End Intent.

(** ** Stage classifier ([ConversationStageService]) *)

Module Stage.
Section WithLower.

Variable lower : pystr → pystr.

Definition valid_stages : list pystr :=
  py <$> ["opening"; "exploring"; "clarifying"; "searching"; "recommending";
          "deciding"; "closing"].

Definition opening_keywords : list pystr :=
  py <$> ["你好"; "hello"; "hi"; "嗨"; "您好"; "開始"; "幫助"].
Definition exploring_keywords : list pystr :=
  py <$> ["喜歡"; "想要"; "偏好"; "興趣"; "類型"; "什麼樣"; "推薦"].
Definition clarifying_keywords : list pystr :=
  py <$> ["具體"; "詳細"; "確認"; "是否"; "對嗎"; "正確嗎"; "意思是"].
Definition searching_keywords : list pystr :=
  py <$> ["搜尋"; "查找"; "找"; "活動"; "事件"; "搜索"].
Definition recommending_keywords : list pystr :=
  py <$> ["推薦"; "建議"; "適合"; "可以試試"; "為您找到"].
Definition deciding_keywords : list pystr :=
  py <$> ["考慮"; "想想"; "決定"; "選擇"; "報名"; "參加"; "不錯"; "感興趣"].
Definition closing_keywords : list pystr :=
  py <$> ["謝謝"; "再見"; "結束"; "不用了"; "夠了"; "bye"].

(** [msg.get("content", "").lower()]; [None] when [.lower()] raises. *)
Definition content_lower (msg : message) : option pystr :=
  match content msg with
  | None => Some (lower [])
  | Some (PStr s) => Some (lower s)
  | Some PNonStr => None
  end.

(** [[msg.get("content", "").lower() for msg in chat_history
      if msg.get("role") == r]] *)
Definition lowered_contents (r : pystr) (chat_history : list message)
    : option (list pystr) :=
  mapM content_lower (filter (has_role r) chat_history).

(** The keyword and length rules, reached once the history has more than
    two entries. *)
Definition stage_rules (conversation_length : nat)
    (last_user_message last_bot_message : pystr) : pystr :=
  if any_in last_user_message closing_keywords then py "closing"
  else if any_in last_user_message searching_keywords then py "searching"
  else if any_in last_bot_message recommending_keywords
       then py "recommending"
  else if any_in last_user_message deciding_keywords then py "deciding"
  else if any_in last_user_message clarifying_keywords then py "clarifying"
  else if any_in last_user_message exploring_keywords then py "exploring"
  else if any_in last_user_message opening_keywords then py "opening"
  else if bool_decide (conversation_length ≤ 4) then py "exploring"
  else if bool_decide (conversation_length ≤ 8) then py "clarifying"
  else if bool_decide (conversation_length ≤ 12) then py "searching"
  else py "recommending".

(** The body of the [try] block; [None] is a raised exception. *)
Definition rule_based_try (chat_history : list message) : option pystr :=
  match chat_history with
  | [] => Some (py "opening")
  | _ =>
    let conversation_length := length chat_history in
    user_messages ← lowered_contents user_role chat_history;
    bot_messages ← lowered_contents assistant_role chat_history;
    let last_user_message := default [] (last user_messages) in
    let last_bot_message := default [] (last bot_messages) in
    if bool_decide (conversation_length ≤ 2) then Some (py "opening")
    else Some (stage_rules conversation_length last_user_message
                 last_bot_message)
  end.

(** [ConversationStageService._rule_based_stage_analysis]: the [except]
    clause answers [exploring]. *)
Definition _rule_based_stage_analysis (chat_history : list message) : pystr :=
  default (py "exploring") (rule_based_try chat_history).

(** What the chat-completion call of the classifier comes back with: a
    reply text, or any failure (time-out, connection error, other
    exception). *)
Inductive completion :=
  | Reply (text : pystr)
  | Failed.

(** [msg.get("content", "")] *)
Definition content_or_empty (msg : message) : pyval :=
  default (PStr []) (content msg).

(** [ConversationStageService.analyze_conversation_stage].  The external
    classifier [gpt] sees the recent user and assistant contents and the
    length of the conversation. *)
Definition analyze_conversation_stage
    (gpt : list pyval → list pyval → nat → completion)
    (chat_history : list message) : pystr :=
  match chat_history with
  | [] => py "opening"
  | _ =>
    let conversation_length := length chat_history in
    if bool_decide (conversation_length ≤ 2) then py "opening"
    else
      let recent_messages := last_n 6 chat_history in
      let recent_user_messages :=
        content_or_empty <$> filter (has_role user_role) recent_messages in
      let recent_bot_messages :=
        content_or_empty <$> filter (has_role assistant_role) recent_messages in
      match gpt recent_user_messages recent_bot_messages conversation_length with
      | Reply text =>
        let stage := lower (strip text) in
        if bool_decide (stage ∈ valid_stages) then stage
        else _rule_based_stage_analysis chat_history
      | Failed => _rule_based_stage_analysis chat_history
      end
  end.

(** The reference priority definition of the specification: seven keyword
    families in order, each tested on the last user message or on the last
    assistant message, then the length heuristic. *)
Inductive speaker := LastUser | LastAssistant.

Definition stage_priority : list (list pystr * speaker * pystr) :=
  [ (closing_keywords, LastUser, py "closing");
    (searching_keywords, LastUser, py "searching");
    (recommending_keywords, LastAssistant, py "recommending");
    (deciding_keywords, LastUser, py "deciding");
    (clarifying_keywords, LastUser, py "clarifying");
    (exploring_keywords, LastUser, py "exploring");
    (opening_keywords, LastUser, py "opening") ].

Definition length_heuristic (turns : nat) : pystr :=
  if bool_decide (turns ≤ 4) then py "exploring"
  else if bool_decide (turns ≤ 8) then py "clarifying"
  else if bool_decide (turns ≤ 12) then py "searching"
  else py "recommending".

Fixpoint first_family (user_text bot_text : pystr)
    (table : list (list pystr * speaker * pystr)) : option pystr :=
  match table with
  | [] => None
  | (keywords, who, stage) :: table' =>
    let text := match who with LastUser => user_text | LastAssistant => bot_text end in
    if any_in text keywords then Some stage
    else first_family user_text bot_text table'
  end.

(** The text of a turn, lower-cased; a turn without text counts as empty. *)
Definition turn_text (msg : message) : pystr :=
  match content msg with
  | Some (PStr s) => lower s
  | _ => lower []
  end.

(** The lower-cased text of the last turn of speaker [r], empty when [r]
    never spoke. *)
Definition last_text_of (r : pystr) (chat_history : list message) : pystr :=
  default [] (turn_text <$> last (filter (has_role r) chat_history)).

Definition reference_stage (chat_history : list message) : pystr :=
  default (length_heuristic (length chat_history))
    (first_family (last_text_of user_role chat_history)
       (last_text_of assistant_role chat_history) stage_priority).

(** Every content that is present is a string. *)
Definition textual (chat_history : list message) : Prop :=
  Forall (λ msg, content msg ≠ Some PNonStr) chat_history.

End WithLower.
End Stage.

(** ** Proactive-question gate ([ProactiveQuestioningService]) *)

Module Proactive.
Section WithLower.

Variable lower : pystr → pystr.

(** The context dict, read only through
    [context.get("conversation_history", [])]. *)
Record context := Context {
  conversation_history : option (list message)
}.

(** The reasons returned with the decision. *)
Definition reason_short : pystr := py "用戶回應簡短，需要更多引導".
Definition reason_vague : pystr := py "用戶需求模糊，需要澄清".
Definition reason_results : pystr := py "提供搜尋結果後需要引導用戶".
Definition reason_interest : pystr := py "用戶表達興趣，可以深入探索".
Definition reason_stalled : pystr := py "對話停滯，需要新的方向".
Definition reason_open : pystr := py "用戶提出開放性問題，可以提供更多選項".
Definition reason_flowing : pystr := py "當前對話流暢，無需主動提問".

Definition vague_indicators : list pystr :=
  py <$> ["不知道"; "隨便"; "都可以"; "看看"; "沒想法"; "不確定"].
Definition interest_indicators : list pystr :=
  py <$> ["不錯"; "有趣"; "看起來"; "感覺"; "好像"].
Definition open_questions : list pystr :=
  py <$> ["什麼"; "如何"; "怎麼"; "為什麼"; "哪裡"; "哪個"].

(** [msg.get("content", "").lower()]; [None] when [.lower()] raises. *)
Definition content_lower (msg : message) : option pystr :=
  match content msg with
  | None => Some (lower [])
  | Some (PStr s) => Some (lower s)
  | Some PNonStr => None
  end.

(** [all_words]: the words of all messages, in order. *)
Definition words_of (messages_content : list pystr) : list pystr :=
  concat (split <$> messages_content).

(** [1 - len(set(all_words)) / len(all_words)] *)
Definition repetition_ratio (all_words : list pystr) : Q :=
  let unique_words : gset pystr := list_to_set all_words in
  1 - inject_Z (Z.of_nat (size unique_words))
      / inject_Z (Z.of_nat (length all_words)).

(** The body of the [try] block of [_is_conversation_stagnant]. *)
Definition stagnant_try (user_messages : list message) : option bool :=
  if bool_decide (length user_messages < 2) then Some false
  else
    messages_content ← mapM content_lower user_messages;
    let all_words := words_of messages_content in
    if bool_decide (length all_words = 0) then Some true
    else Some (bool_decide (6 # 10 < repetition_ratio all_words)%Q).

(** [ProactiveQuestioningService._is_conversation_stagnant]: the [except]
    clause answers [False]. *)
Definition _is_conversation_stagnant (user_messages : list message) : bool :=
  default false (stagnant_try user_messages).

(** Case 5 of the gate. *)
Definition stalled (ctx : context) : bool :=
  let conversation_history := default [] (conversation_history ctx) in
  if bool_decide (6 < length conversation_history) then
    let recent_messages := last_n 4 conversation_history in
    let user_messages := filter (has_role user_role) recent_messages in
    if bool_decide (2 ≤ length user_messages)
    then _is_conversation_stagnant user_messages
    else false
  else false.

(** [ProactiveQuestioningService.should_ask_proactive_question] on string
    arguments (no statement of the [try] block raises on them). *)
Definition should_ask_proactive_question
    (user_message bot_response : pystr) (ctx : context) : bool * pystr :=
  let user_message_lower := lower user_message in
  if bool_decide (length (strip user_message) < 10) then (true, reason_short)
  else if any_in user_message_lower vague_indicators then (true, reason_vague)
  else if contains (py "搜尋結果") bot_response
          && negb (contains (py "?") bot_response)
       then (true, reason_results)
  else if any_in user_message_lower interest_indicators
       then (true, reason_interest)
  else if stalled ctx then (true, reason_stalled)
  else if any_in user_message open_questions then (true, reason_open)
  else (false, reason_flowing).

(** The conditions of the specification, in its words. *)

(** Triggers 1 to 4 do not fire. *)
Definition quiet_before_stagnation (user_message bot_response : pystr) : Prop :=
  ¬ (length (strip user_message) < 10)
  ∧ any_in (lower user_message) vague_indicators = false
  ∧ ¬ (contains (py "搜尋結果") bot_response = true
       ∧ contains (py "?") bot_response = false)
  ∧ any_in (lower user_message) interest_indicators = false.

(** The texts of the user messages among the last 4 turns. *)
Definition recent_user_texts (ctx : context) : option (list pystr) :=
  mapM content_lower
    (filter (has_role user_role)
       (last_n 4 (default [] (conversation_history ctx)))).

(** Trigger 5 as the specification words it: over the last 4 turns there
    are at least 2 user messages, and the repetition ratio of their
    combined vocabulary exceeds 0.6. *)
Definition stagnation_condition (ctx : context) : Prop :=
  ∃ texts, recent_user_texts ctx = Some texts
    ∧ 2 ≤ length texts
    ∧ 0 < length (words_of texts)
    ∧ (6 # 10 < repetition_ratio (words_of texts))%Q.

End WithLower.
End Proactive.

(** ** Profile store ([UserProfileDBService] over [database.py]) *)

(** The rows of the tables, with the columns the operations below read or
    write.  A table is the list of its rows in insertion (rowid) order,
    which is the order in which SQLite returns them. *)

Module ChatSession.
Record t := Make {
  session_id : pystr;
  ip_address : option pystr;
  created_at : Z
}.
End ChatSession.

(** A value of a trait map: a number or a category name. *)
Inductive trait_value :=
  | TNum (q : Q)
  | TText (s : pystr).

Module UserProfile.
Record t := Make {
  id : Z;
  session_id : pystr;
  visit_count : Z;
  total_interactions : option Z;
  satisfaction_score : option float;
  last_activity : option Z;
  personality_traits : gmap pystr trait_value
}.
End UserProfile.

Module UserInterest.
Record t := Make {
  profile_id : Z;
  interest : pystr;
  confidence : Q;
  source : pystr;
  created_at : Z;
  updated_at : Z
}.
End UserInterest.

Module UserPreference.
Record t := Make {
  profile_id : Z;
  preference_type : pystr;
  preference_value : pystr;
  confidence : Q;
  updated_at : Z
}.
End UserPreference.

(** The store behind a [Session]. *)
Record Session := {
  chat_sessions : list ChatSession.t;
  user_profiles : list UserProfile.t;
  user_interests : list UserInterest.t;
  user_preferences : list UserPreference.t
}.

(** An entry of the ["interests"] list of a profile dict. *)
Module InterestDict.
Record t := Make {
  interest : pystr;
  confidence : Q;
  source : pystr;
  created_at : Z
}.
End InterestDict.

(** A value of the ["activity_preferences"] dict: a list of strings, or a
    single optional string. *)
Inductive pref_value :=
  | PList (values : list pystr)
  | PScalar (value : option pystr).

(** The profile dict built by [get_user_profile] (the behaviour and
    feedback logs are not part of this development). *)
Module ProfileData.
Record t := Make {
  session_id : pystr;
  visit_count : Z;
  total_interactions : option Z;
  satisfaction_score : option float;
  last_activity : option Z;
  personality_traits : gmap pystr trait_value;
  interests : list InterestDict.t;
  activity_preferences : gmap pystr pref_value
}.
End ProfileData.

Module Store.

(** *** Reading *)

(** [UserProfileDBService._get_user_interests] *)
Definition _get_user_interests (db : Session) (profile_id : Z)
    : list InterestDict.t :=
  (λ interest,
     InterestDict.Make (UserInterest.interest interest)
       (UserInterest.confidence interest) (UserInterest.source interest)
       (UserInterest.created_at interest))
  <$> filter (λ row, UserInterest.profile_id row = profile_id)
        (user_interests db).

Definition k_categories : pystr := py "preferred_categories".
Definition k_locations : pystr := py "preferred_locations".
Definition k_times : pystr := py "preferred_times".
Definition k_group : pystr := py "group_preference".
Definition k_budget : pystr := py "budget_sensitivity".

(** The dict [result] before the rows are read. *)
Definition empty_preferences : gmap pystr pref_value :=
  <[k_budget := PScalar None]>
    (<[k_group := PScalar None]>
      (<[k_times := PList []]>
        (<[k_locations := PList []]>
          (<[k_categories := PList []]> ∅)))).

(** [result[key].append(value)] *)
Definition append_to (value : pystr) (x : pref_value) : pref_value :=
  match x with
  | PList values => PList (values ++ [value])
  | PScalar _ => x
  end.

(** One turn of the loop of [_get_user_preferences]. *)
Definition read_preference (result : gmap pystr pref_value)
    (pref : UserPreference.t) : gmap pystr pref_value :=
  let type := UserPreference.preference_type pref in
  let value := UserPreference.preference_value pref in
  if decide (type = py "category") then alter (append_to value) k_categories result
  else if decide (type = py "location") then alter (append_to value) k_locations result
  else if decide (type = py "time") then alter (append_to value) k_times result
  else if decide (type = py "group_size") then <[k_group := PScalar (Some value)]> result
  else if decide (type = py "budget") then <[k_budget := PScalar (Some value)]> result
  else result.

(** [UserProfileDBService._get_user_preferences] *)
Definition _get_user_preferences (db : Session) (profile_id : Z)
    : gmap pystr pref_value :=
  foldl read_preference empty_preferences
    (filter (λ row, UserPreference.profile_id row = profile_id)
       (user_preferences db)).

(** The next value of an auto-incremented primary key. *)
Definition next_profile_id (db : Session) : Z :=
  (1 + foldr Z.max 0 (UserProfile.id <$> user_profiles db))%Z.

(** [db.query(UserProfile).filter(UserProfile.session_id == session_id).first()] *)
Definition find_profile (db : Session) (session_id : pystr)
    : option UserProfile.t :=
  snd <$> list_find (λ p, UserProfile.session_id p = session_id)
            (user_profiles db).

(** [UserProfileDBService._create_user_profile]; [now] is the clock. *)
Definition _create_user_profile (db : Session) (session_id : pystr) (now : Z)
    : Session * UserProfile.t :=
  let session :=
    snd <$> list_find (λ s, ChatSession.session_id s = session_id)
              (chat_sessions db) in
  let visit_count :=
    match session with
    | Some session =>
      match ChatSession.ip_address session with
      | Some ((_ :: _) as ip) =>
        let earlier_sessions_count :=
          length (filter (λ s, ChatSession.ip_address s = Some ip
                               ∧ (ChatSession.created_at s
                                  < ChatSession.created_at session)%Z)
                    (chat_sessions db)) in
        (Z.of_nat earlier_sessions_count + 1)%Z
      | _ => 1%Z
      end
    | None => 1%Z
    end in
  let profile :=
    UserProfile.Make (next_profile_id db) session_id visit_count (Some 0%Z)
      (Some 0%float) (Some now) ∅ in
  ({| chat_sessions := chat_sessions db;
      user_profiles := user_profiles db ++ [profile];
      user_interests := user_interests db;
      user_preferences := user_preferences db |}, profile).

(** The find-or-create step that opens every public operation. *)
Definition get_or_create_profile (db : Session) (session_id : pystr) (now : Z)
    : Session * UserProfile.t :=
  match find_profile db session_id with
  | Some profile => (db, profile)
  | None => _create_user_profile db session_id now
  end.

(** [UserProfileDBService.get_user_profile] *)
Definition get_user_profile (db : Session) (session_id : pystr) (now : Z)
    : Session * ProfileData.t :=
  let '(db, profile) := get_or_create_profile db session_id now in
  (db,
   ProfileData.Make (UserProfile.session_id profile)
     (UserProfile.visit_count profile)
     (UserProfile.total_interactions profile)
     (UserProfile.satisfaction_score profile)
     (UserProfile.last_activity profile)
     (UserProfile.personality_traits profile)
     (_get_user_interests db (UserProfile.id profile))
     (_get_user_preferences db (UserProfile.id profile))).

(** *** Personalized recommendations *)

Module Recommendations.
Record t := Make {
  suggested_categories : list pystr;
  suggested_locations : list pystr;
  suggested_times : list pystr;
  personalized_message : pystr;
  confidence : Q
}.
End Recommendations.

(** [sorted(interests, key=confidence, reverse=True)]: a stable sort,
    entries of equal confidence keep their order. *)
Fixpoint insert_desc (x : InterestDict.t) (l : list InterestDict.t)
    : list InterestDict.t :=
  match l with
  | [] => [x]
  | y :: l' =>
    if decide (InterestDict.confidence x < InterestDict.confidence y)%Q
    then y :: insert_desc x l'
    else x :: l
  end.

Definition sorted_by_confidence (l : list InterestDict.t)
    : list InterestDict.t :=
  foldr insert_desc [] l.

(** [preferences.get(key, [])] where a list is stored. *)
Definition strings_at (key : pystr) (preferences : gmap pystr pref_value)
    : list pystr :=
  match preferences !! key with
  | Some (PList values) => values
  | _ => []
  end.

(** [v > bound] for a trait value; comparing a string with a float
    raises. *)
Definition exceeds (v : trait_value) (bound : Q) : option bool :=
  match v with
  | TNum q => Some (bool_decide (bound < q)%Q)
  | TText _ => None
  end.

Definition message_social : pystr :=
  py "我注意到您喜歡社交活動，為您推薦一些團體活動！".
Definition message_adventure : pystr :=
  py "看起來您喜歡冒險，這些新奇的活動可能很適合您！".
Definition message_generic : pystr :=
  py "根據您的偏好，這些活動應該很適合您！".
Definition message_error : pystr := py "讓我為您推薦一些活動！".

(** [sum([...])] of booleans. *)
Definition count_true (checks : list bool) : Z :=
  Z.of_nat (length (filter (λ b, b = true) checks)).

(** The [try] block of [get_personalized_recommendations] after the profile
    is read; [None] is a raised exception. *)
Definition recommendations_try (profile_data : ProfileData.t)
    : option Recommendations.t :=
  let interests := ProfileData.interests profile_data in
  let preferences := ProfileData.activity_preferences profile_data in
  let personality := ProfileData.personality_traits profile_data in
  let suggested_categories : list pystr :=
    match interests with
    | [] => []
    | _ => InterestDict.interest <$> take 3 (sorted_by_confidence interests)
    end in
  let suggested_locations :=
    if bool_decide (size preferences = 0) then []
    else strings_at k_locations preferences in
  let suggested_times :=
    if bool_decide (size preferences = 0) then []
    else strings_at k_times preferences in
  let social_level := default (TNum (5 # 10)) (personality !! py "social_level") in
  let adventure_seeking :=
    default (TNum (5 # 10)) (personality !! py "adventure_seeking") in
  social ← exceeds social_level (7 # 10);
  personalized_message ←
    (if social : bool then Some message_social
     else adventurous ← exceeds adventure_seeking (7 # 10);
          Some (if adventurous : bool then message_adventure
                else message_generic));
  let checks :=
    [ bool_decide (0 < length interests);
      bool_decide (0 < size preferences);
      bool_decide (0 < size personality);
      bool_decide (1 < ProfileData.visit_count profile_data)%Z ] in
  let data_completeness := (inject_Z (count_true checks) / 4)%Q in
  Some (Recommendations.Make suggested_categories suggested_locations
          suggested_times personalized_message data_completeness).

(** The dict returned by the [except] clause. *)
Definition error_recommendations : Recommendations.t :=
  Recommendations.Make [] [] [] message_error 0.

(** [UserProfileDBService.get_personalized_recommendations] *)
Definition get_personalized_recommendations (db : Session)
    (session_id : pystr) (now : Z) : Session * Recommendations.t :=
  let '(db, profile_data) := get_user_profile db session_id now in
  (db, default error_recommendations (recommendations_try profile_data)).

(** The four completeness checks in the words of the specification. *)
Definition has_recorded_preference (db : Session) (profile_id : Z) : bool :=
  bool_decide (Exists (λ row, UserPreference.profile_id row = profile_id)
                 (user_preferences db)).

(** *** Interest upserts *)

(** [existing.confidence = min(existing.confidence + 0.1, 1.0)] with the
    time stamp refreshed. *)
Definition reinforce_interest (now : Z) (existing : UserInterest.t)
    : UserInterest.t :=
  UserInterest.Make (UserInterest.profile_id existing)
    (UserInterest.interest existing)
    (py_min (UserInterest.confidence existing + (1 # 10)) 1)
    (UserInterest.source existing) (UserInterest.created_at existing) now.

(** The query for an existing row. *)
Definition find_interest (rows : list UserInterest.t) (profile_id : Z)
    (interest_name : pystr) : option (nat * UserInterest.t) :=
  list_find (λ row, UserInterest.profile_id row = profile_id
                    ∧ UserInterest.interest row = interest_name) rows.

(** One turn of the loop of [_update_interests_db].  The session is created
    with [autoflush=False]: a query sees the rows of the table (with the
    changes made to them in memory) but not the rows added since the last
    commit, which wait in [pending]. *)
Definition upsert_interest (profile_id now : Z)
    (st : list UserInterest.t * list UserInterest.t) (interest_name : pystr)
    : list UserInterest.t * list UserInterest.t :=
  let '(rows, pending) := st in
  match find_interest rows profile_id interest_name with
  | Some (i, existing) => (<[i := reinforce_interest now existing]> rows, pending)
  | None =>
    (rows,
     pending ++ [UserInterest.Make profile_id interest_name (7 # 10)
                   (py "conversation") now now])
  end.

(** [UserProfileDBService._update_interests_db], on
    [interests_data.get("interests", [])]. *)
Definition _update_interests_db (db : Session) (profile_id : Z)
    (interests : list pystr) (now : Z) : Session :=
  let '(rows, pending) :=
    foldl (upsert_interest profile_id now) (user_interests db, []) interests in
  {| chat_sessions := chat_sessions db;
     user_profiles := user_profiles db;
     user_interests := rows ++ pending;
     user_preferences := user_preferences db |}.

(** [UserProfileDBService.update_user_interest] *)
Definition update_user_interest (db : Session) (session_id interest : pystr)
    (confidence : Q) (source : pystr) (now : Z) : Session :=
  let '(db, profile) := get_or_create_profile db session_id now in
  let rows := user_interests db in
  let rows :=
    match find_interest rows (UserProfile.id profile) interest with
    | Some (i, existing_interest) =>
      <[i := UserInterest.Make (UserInterest.profile_id existing_interest)
               (UserInterest.interest existing_interest)
               (py_max (UserInterest.confidence existing_interest) confidence)
               (UserInterest.source existing_interest)
               (UserInterest.created_at existing_interest) now]> rows
    | None =>
      rows ++ [UserInterest.Make (UserProfile.id profile) interest confidence
                 source now now]
    end in
  {| chat_sessions := chat_sessions db;
     user_profiles := user_profiles db;
     user_interests := rows;
     user_preferences := user_preferences db |}.

(** The confidence stored for an interest of a profile: that of the row the
    upserts find. *)
Definition interest_confidence (db : Session) (profile_id : Z)
    (interest_name : pystr) : option Q :=
  (UserInterest.confidence ∘ snd)
  <$> find_interest (user_interests db) profile_id interest_name.

(** One upsert of the interest [interest_name] of the stored profile
    [profile_id], through either operation; the caller of
    [update_user_interest] passes a confidence of at most 1. *)
Inductive upsert_step (profile_id : Z) (interest_name : pystr)
    : Session → Session → Prop :=
  | reinforce_step db now :
      upsert_step profile_id interest_name db
        (_update_interests_db db profile_id [interest_name] now)
  | explicit_step db session_id profile confidence source now :
      find_profile db session_id = Some profile →
      UserProfile.id profile = profile_id →
      (confidence <= 1)%Q →
      upsert_step profile_id interest_name db
        (update_user_interest db session_id interest_name confidence source now).

(** The stored confidence, if any, is at most 1. *)
Definition confidence_bounded (db : Session) (profile_id : Z)
    (interest_name : pystr) : Prop :=
  ∀ c, interest_confidence db profile_id interest_name = Some c → (c <= 1)%Q.

(** *** Preference upserts *)

(** [preference_mappings], in the order of its items. *)
Definition preference_mappings : list (pystr * pystr) :=
  [ (k_categories, py "category");
    (k_locations, py "location");
    (k_times, py "time");
    (k_group, py "group_size");
    (k_budget, py "budget") ].

(** [values = activity_preferences.get(key, [])], wrapped in a list when it
    is a single truthy value and emptied when it is a falsy one. *)
Definition values_at (key : pystr) (activity_preferences : gmap pystr pref_value)
    : list pystr :=
  match activity_preferences !! key with
  | None => []
  | Some (PList values) => values
  | Some (PScalar (Some ((_ :: _) as value))) => [value]
  | Some (PScalar _) => []
  end.

Definition reinforce_preference (now : Z) (existing : UserPreference.t)
    : UserPreference.t :=
  UserPreference.Make (UserPreference.profile_id existing)
    (UserPreference.preference_type existing)
    (UserPreference.preference_value existing)
    (py_min (UserPreference.confidence existing + (1 # 10)) 1) now.

Definition find_preference (rows : list UserPreference.t) (profile_id : Z)
    (pref_type value : pystr) : option (nat * UserPreference.t) :=
  list_find (λ row, UserPreference.profile_id row = profile_id
                    ∧ UserPreference.preference_type row = pref_type
                    ∧ UserPreference.preference_value row = value) rows.

(** The body of the inner loop of [_update_preferences_db]; as for the
    interests, rows added since the last commit are not seen by the query. *)
Definition upsert_preference (profile_id now : Z) (pref_type : pystr)
    (st : list UserPreference.t * list UserPreference.t) (value : pystr)
    : list UserPreference.t * list UserPreference.t :=
  let '(rows, pending) := st in
  match value with
  | [] => st
  | _ =>
    match find_preference rows profile_id pref_type value with
    | Some (i, existing) =>
      (<[i := reinforce_preference now existing]> rows, pending)
    | None =>
      (rows,
       pending ++ [UserPreference.Make profile_id pref_type value (7 # 10) now])
    end
  end.

(** [UserProfileDBService._update_preferences_db], on
    [preferences_data.get("activity_preferences", {})]. *)
Definition _update_preferences_db (db : Session) (profile_id : Z)
    (activity_preferences : gmap pystr pref_value) (now : Z) : Session :=
  let '(rows, pending) :=
    foldl (λ st '(key, pref_type),
             foldl (upsert_preference profile_id now pref_type) st
               (values_at key activity_preferences))
      (user_preferences db, []) preference_mappings in
  {| chat_sessions := chat_sessions db;
     user_profiles := user_profiles db;
     user_interests := user_interests db;
     user_preferences := rows ++ pending |}.

(** The dict [activity_preferences] holds the one preference [value] under
    [key], as a one-element list or as a single string. *)
Definition only_preference (activity_preferences : gmap pystr pref_value)
    (key value : pystr) : Prop :=
  ∀ k, values_at k activity_preferences = if decide (k = key) then [value] else [].

(** The rows stored for a (profile, type, value). *)
Definition stored_copies (db : Session) (profile_id : Z)
    (pref_type value : pystr) : nat :=
  length (filter (λ row, UserPreference.profile_id row = profile_id
                         ∧ UserPreference.preference_type row = pref_type
                         ∧ UserPreference.preference_value row = value)
            (user_preferences db)).

(** How often the read dict shows [value] under a key. *)
Definition surfaced (value : pystr) (bucket : option pref_value) : nat :=
  match bucket with
  | Some (PList values) => length (filter (λ v, v = value) values)
  | Some (PScalar (Some v)) => if decide (v = value) then 1 else 0
  | _ => 0
  end.

(** The keys read as lists and the keys read as single values, with the
    type of the rows behind them. *)
Definition list_buckets : list (pystr * pystr) :=
  [ (k_categories, py "category"); (k_locations, py "location");
    (k_times, py "time") ].
Definition scalar_buckets : list (pystr * pystr) :=
  [ (k_group, py "group_size"); (k_budget, py "budget") ].

(** The values of the rows of a profile and a type, in table order. *)
Definition typed_values (db : Session) (profile_id : Z) (pref_type : pystr)
    : list pystr :=
  UserPreference.preference_value
  <$> filter (λ row, UserPreference.preference_type row = pref_type)
        (filter (λ row, UserPreference.profile_id row = profile_id)
           (user_preferences db)).

(** *** Cross-session merge *)

Module Integrated.
Record t := Make {
  session_id : pystr;
  visit_count : Z;
  total_interactions : Z;
  satisfaction_score : option float;
  last_activity : option Z;
  interests : list InterestDict.t;
  activity_preferences : gmap pystr (list (option pystr))
}.
End Integrated.











(** The comparisons used to state the order independence of the merge. *)







(** Sorted by confidence, highest first. *)
Definition descending (l : list InterestDict.t) : Prop :=
  StronglySorted
    (λ a b, (InterestDict.confidence b <= InterestDict.confidence a)%Q) l.





End Store.

(** ** Stage transitions ([ConversationStageService.should_transition_stage]) *)

Module Transition.
Section WithLower.

Variable lower : pystr → pystr.

(** [transition_rules]: for a stage, the stage it leads to and the triggers
    of the move, in the order of the dict. *)
Definition transition_rules : list (pystr * (pystr * list pystr)) :=
  [ (py "opening",
     (py "exploring", py <$> ["想找"; "需要"; "喜歡"; "偏好"; "活動"]));
    (py "exploring",
     (py "clarifying", py <$> ["具體"; "確認"; "是的"; "對"; "沒錯"]));
    (py "clarifying",
     (py "searching", py <$> ["搜尋"; "查找"; "找"; "開始"; "好的"]));
    (py "searching",
     (py "recommending", py <$> ["結果"; "推薦"; "建議"; "看看"]));
    (py "recommending",
     (py "deciding", py <$> ["考慮"; "想想"; "不錯"; "感興趣"; "喜歡"]));
    (py "deciding",
     (py "closing", py <$> ["決定"; "選擇"; "謝謝"; "夠了"; "不用了"])) ].

Definition closing_triggers : list pystr :=
  py <$> ["再見"; "謝謝"; "結束"; "bye"; "不用了"].

(** [transition_rules[current_stage]], when the stage is a key. *)
Definition rule_of (current_stage : pystr) : option (pystr * list pystr) :=
  (snd ∘ snd) <$> list_find (λ rule, rule.1 = current_stage) transition_rules.

(** [ConversationStageService.should_transition_stage] on string arguments
    (no statement of the [try] block raises on them); the reply of the
    assistant and the context are not read. *)
Definition should_transition_stage
    (current_stage user_message bot_response : pystr) : bool * pystr :=
  let user_message_lower := lower user_message in
  let by_rule :=
    match rule_of current_stage with
    | Some (to, triggers) =>
      if any_in user_message_lower triggers then Some to else None
    | None => None
    end in
  match by_rule with
  | Some to => (true, to)
  | None =>
    if any_in user_message_lower closing_triggers then (true, py "closing")
    else (false, current_stage)
  end.

(** The place of a stage in the course of a conversation. *)
Definition stage_rank (stage : pystr) : option nat :=
  fst <$> list_find (λ s, s = stage) Stage.valid_stages.

End WithLower.
End Transition.

(** ** Sentiment fallback ([SentimentAnalysisService]) *)

Module Sentiment.
Section WithLower.

Variable lower : pystr → pystr.

Definition positive_keywords : list pystr :=
  py <$> ["好"; "棒"; "讚"; "喜歡"; "愛"; "開心"; "高興"; "滿意"; "謝謝"; "感謝"].
Definition excited_keywords : list pystr :=
  py <$> ["期待"; "興奮"; "迫不及待"; "太棒了"; "哇"; "驚喜"].
Definition negative_keywords : list pystr :=
  py <$> ["不好"; "糟"; "討厭"; "失望"; "難過"; "生氣"; "煩"; "爛"].
Definition frustrated_keywords : list pystr :=
  py <$> ["困惑"; "不懂"; "搞不清楚"; "複雜"; "麻煩"; "煩惱"].
Definition curious_keywords : list pystr :=
  py <$> ["想知道"; "好奇"; "有趣"; "探索"; "了解"; "學習"].

(** [SentimentAnalysisService._fallback_sentiment_analysis] *)
Definition _fallback_sentiment_analysis (message : pystr) : pystr :=
  let message_lower := lower message in
  if any_in message_lower positive_keywords then py "positive"
  else if any_in message_lower excited_keywords then py "excited"
  else if any_in message_lower negative_keywords then py "negative"
  else if any_in message_lower frustrated_keywords then py "frustrated"
  else if any_in message_lower curious_keywords then py "curious"
  else py "neutral".

End WithLower.
End Sentiment.

(** ** Interest fallback ([InterestAnalysisService]) *)

Module Interests.
Section WithLower.

Variable lower : pystr → pystr.

(** [interest_keywords], in the order of the dict. *)
Definition interest_keywords : list (pystr * list pystr) :=
  [ (py "藝術文化",
     py <$> ["藝術"; "展覽"; "美術"; "攝影"; "文學"; "戲劇"; "舞蹈"; "藝文";
             "博物館"; "畫廊"]);
    (py "音樂娛樂",
     py <$> ["音樂"; "演唱會"; "音樂會"; "演出"; "表演"; "歌手"; "樂團";
             "音樂節"]);
    (py "運動健身",
     py <$> ["運動"; "健身"; "瑜伽"; "跑步"; "球類"; "游泳"; "登山";
             "戶外運動"]);
    (py "親子家庭",
     py <$> ["親子"; "兒童"; "家庭"; "小孩"; "孩子"; "親子活動"]);
    (py "學習成長",
     py <$> ["學習"; "課程"; "講座"; "工作坊"; "研習"; "教學"; "培訓"]);
    (py "美食餐飲",
     py <$> ["美食"; "餐廳"; "料理"; "烹飪"; "品酒"; "咖啡"; "甜點"]);
    (py "旅遊探索",
     py <$> ["旅遊"; "戶外"; "野餐"; "露營"; "踏青"; "自然"; "郊遊"]);
    (py "科技創新",
     py <$> ["科技"; "創新"; "數位"; "AI"; "程式"; "技術"]);
    (py "社交聚會",
     py <$> ["社交"; "聚會"; "交友"; "派對"; "聯誼"; "社群"]) ].

(** The loop over [interest_keywords.items()]. *)
Definition detect (message_lower : pystr) (table : list (pystr * list pystr))
    : list pystr :=
  fst <$> filter (λ entry, any_in message_lower entry.2 = true) table.

(** [InterestAnalysisService._fallback_interest_analysis] *)
Definition _fallback_interest_analysis (message : pystr) : list pystr :=
  let message_lower := lower message in
  let detected_interests := detect message_lower interest_keywords in
  take 3 detected_interests.

(** The keywords of the technology category that are written in lower
    case. *)
Definition technology_keywords : list pystr :=
  py <$> ["科技"; "創新"; "數位"; "程式"; "技術"].

(** No capital A is left in a lower-cased text. *)
Definition lowers_capital_a : Prop := ∀ s, 65%N ∉ lower s.

End WithLower.
End Interests.

(** ** Invariants of the interest table *)

Module Laws.

(** At most one interest row per (profile, name). *)
Definition interest_rows_unique (rows : list UserInterest.t) : Prop :=
  ∀ profile_id interest_name,
    length (filter (λ row, UserInterest.profile_id row = profile_id
                           ∧ UserInterest.interest row = interest_name) rows)
    ≤ 1.

(** The state of the loop of [_update_interests_db] after the names [seen]:
    table and added rows together hold one row per key, and the added rows
    are rows of the profile for names that were seen. *)
Definition loop_invariant (profile_id : Z) (seen : list pystr)
    (st : list UserInterest.t * list UserInterest.t) : Prop :=
  interest_rows_unique (st.1 ++ st.2)
  ∧ ∀ row, row ∈ st.2 →
           UserInterest.profile_id row = profile_id
           ∧ UserInterest.interest row ∈ seen.

End Laws.

(** ** Sample inputs *)

Module Samples.

Definition user_says (text : string) : message :=
  Message (Some (PStr user_role)) (Some (PStr (py text))).
Definition assistant_says (text : string) : message :=
  Message (Some (PStr assistant_role)) (Some (PStr (py text))).

(** Three turns ending in a search request. *)
Definition search_request : list message :=
  [ user_says "你好"; assistant_says "您好！想找什麼？"; user_says "我想找活動" ].

(** Two turns; the user already says goodbye. *)
Definition two_turns : list message :=
  [ user_says "謝謝，再見"; assistant_says "再見！" ].

(** A classifier that always answers [closing]. *)
Definition always_closing (_ _ : list pyval) (_ : nat) : Stage.completion :=
  Stage.Reply (py "closing").

(** Four turns in which the user repeats one word. *)
Definition four_repetitive_turns : list message :=
  [ user_says "a a a"; assistant_says "x"; user_says "a a a"; assistant_says "x" ].

(** Eight turns; every user turn is the word "activity", repeated. *)
Definition eight_activity_turns : list message :=
  [ user_says "activity activity"; assistant_says "Which one?";
    user_says "activity activity"; assistant_says "Which one?";
    user_says "activity activity"; assistant_says "Which one?";
    user_says "activity activity"; assistant_says "Which one?" ].

(** A message of ten code points or more that no keyword list of the gate
    matches. *)
Definition neutral_message : pystr := py "tell me something more".

(** One profile, of session "s1", with the interest "音樂" at 0.7. *)
Definition music_store : Session :=
  {| chat_sessions := [];
     user_profiles := [UserProfile.Make 1 (py "s1") 1 (Some 0%Z) (Some 0%float) (Some 0%Z) ∅];
     user_interests :=
       [UserInterest.Make 1 (py "音樂") (7 # 10) (py "conversation") 0 0];
     user_preferences := [] |}.

(** The group-size preference given as a single string. *)
Definition group_is (value : string) : gmap pystr pref_value :=
  {[ Store.k_group := PScalar (Some (py value)) ]}.

(** A category preference given as a one-element list. *)
Definition category_is (value : string) : gmap pystr pref_value :=
  {[ Store.k_categories := PList [py value] ]}.



(** A classifier that is never available. *)
Definition never_answers (_ _ : list pyval) (_ : nat) : Stage.completion :=
  Stage.Failed.

(** A classifier that answers [closing] when it is shown at most six
    contents and fails on more. *)
Definition closing_for_six (users bots : list pyval) (_ : nat)
    : Stage.completion :=
  if bool_decide (length users + length bots ≤ 6)
  then Stage.Reply (py "closing") else Stage.Failed.

(** The top three of these interests are the suggested categories. *)
Definition four_interests : list InterestDict.t :=
  [ InterestDict.Make (py "音樂") (7 # 10) (py "conversation") 1;
    InterestDict.Make (py "藝術") (9 # 10) (py "conversation") 2;
    InterestDict.Make (py "運動") (8 # 10) (py "conversation") 3;
    InterestDict.Make (py "美食") (1 # 1) (py "conversation") 4 ].

(** A profile dict with these four interests and nothing else recorded. *)
Definition four_interests_profile : ProfileData.t :=
  ProfileData.Make (py "s1") 1 (Some 0%Z) None None ∅ four_interests
    Store.empty_preferences.

(** A store without any row. *)
Definition empty_store : Session := Build_Session [] [] [] [].

End Samples.

(** * Properties *)

(** ** Text primitives on examples *)

Example py_decodes_cjk : py "你好hi" = [20320; 22909; 104; 105]%N.
Proof. reflexivity. Qed.

Example strip_example : strip (py "  hello world  ") = py "hello world".
Proof. reflexivity. Qed.

Example split_example :
  split (py " activity  Activity activity ") =
  [py "activity"; py "Activity"; py "activity"].
Proof. reflexivity. Qed.

Example contains_example :
  contains (py "活動") (py "想找活動") = true
  ∧ contains (py "hi") (py "hello") = false
  ∧ contains [] (py "abc") = true.
Proof. repeat split; reflexivity. Qed.

Example ascii_lower_example : ascii_lower (py "Hello 你好") = py "hello 你好".
Proof. reflexivity. Qed.

(** ** Intent fallback *)

Section IntentFacts.

Variable lower : pystr → pystr.

Lemma fallback_refines_reference message :
  Intent._fallback_intent_analysis lower message
  = Intent.reference_intent lower message.
Proof.
  unfold Intent._fallback_intent_analysis, Intent.reference_intent,
    Intent.intent_priority.
  cbn [Intent.first_match].
  repeat match goal with
         | |- context [any_in ?t ?k] => destruct (any_in t k)
         end; reflexivity.
Qed.

Lemma search_keywords_win message :
  any_in (lower message) Intent.search_keywords = true →
  Intent._fallback_intent_analysis lower message = py "search_events".
Proof.
  intros Hsearch. unfold Intent._fallback_intent_analysis.
  by rewrite Hsearch.
Qed.

End IntentFacts.

(** C8. The fallback intent classifier is the reference priority scan: the
    keyword sets are tried in the order search, detail, analysis,
    recommendation, greeting, goodbye, the first set with a keyword
    occurring in the lower-cased message gives the intent, and no match
    gives [other].  A message with a search keyword is [search_events]
    whatever later sets it also matches (so is "推薦", a keyword of both
    the search and the recommendation set), and "hello" is [greeting]. *)
Theorem C8_fallback_intent_is_priority_scan :
  (∀ lower message,
     Intent._fallback_intent_analysis lower message
     = Intent.reference_intent lower message)
  ∧ (∀ lower message,
       any_in (lower message) Intent.search_keywords = true →
       Intent._fallback_intent_analysis lower message = py "search_events")
  ∧ (any_in (py "推薦") Intent.search_keywords = true
     ∧ any_in (py "推薦") Intent.recommendation_keywords = true
     ∧ Intent._fallback_intent_analysis ascii_lower (py "推薦")
       = py "search_events")
  ∧ Intent._fallback_intent_analysis ascii_lower (py "hello") = py "greeting"
  ∧ Intent._fallback_intent_analysis ascii_lower (py "12345") = py "other".
Proof.
  split; [exact fallback_refines_reference|].
  split; [exact search_keywords_win|].
  repeat split; reflexivity.
Qed.

Lemma C8_search_before_greeting_witness :
  any_in (ascii_lower (py "Hello 找活動")) Intent.search_keywords = true
  ∧ any_in (ascii_lower (py "Hello 找活動")) Intent.greeting_keywords = true
  ∧ Intent._fallback_intent_analysis ascii_lower (py "Hello 找活動")
    = py "search_events".
Proof.
  split; [reflexivity|]. split; [reflexivity|].
  apply (proj1 (proj2 C8_fallback_intent_is_priority_scan)). reflexivity.
Defined.

(** ** Stage classifier *)

Section StageFacts.

Variable lower : pystr → pystr.

Lemma mapM_content_lower_textual (l : list message) :
  Forall (λ msg, content msg ≠ Some PNonStr) l →
  mapM (Stage.content_lower lower) l = Some (Stage.turn_text lower <$> l).
Proof.
  induction 1 as [|msg l Hmsg _ IH]; [reflexivity|].
  cbn. rewrite IH.
  unfold Stage.content_lower, Stage.turn_text.
  destruct (content msg) as [[s|]|]; first [reflexivity | congruence].
Qed.

Lemma lowered_contents_textual r (chat_history : list message) :
  Stage.textual chat_history →
  Stage.lowered_contents lower r chat_history
  = Some (Stage.turn_text lower <$> filter (has_role r) chat_history).
Proof.
  intros Htext. apply mapM_content_lower_textual.
  apply Forall_forall. intros msg [_ Hin]%list_elem_of_filter.
  revert msg Hin. by apply Forall_forall.
Qed.

Lemma last_lowered r (chat_history : list message) :
  default [] (last (Stage.turn_text lower <$> filter (has_role r) chat_history))
  = Stage.last_text_of lower r chat_history.
Proof. unfold Stage.last_text_of. by rewrite fmap_last. Qed.

Lemma stage_rules_reference n user_text bot_text :
  Stage.stage_rules n user_text bot_text
  = default (Stage.length_heuristic n)
      (Stage.first_family user_text bot_text Stage.stage_priority).
Proof.
  unfold Stage.stage_rules, Stage.stage_priority, Stage.length_heuristic.
  cbn [Stage.first_family].
  repeat match goal with
         | |- context [any_in ?t ?k] => destruct (any_in t k)
         end; reflexivity.
Qed.

Lemma valid_stage_by_computation (stage : pystr) :
  bool_decide (stage ∈ Stage.valid_stages) = true → stage ∈ Stage.valid_stages.
Proof. apply bool_decide_eq_true. Qed.

Lemma stage_rules_valid n user_text bot_text :
  Stage.stage_rules n user_text bot_text ∈ Stage.valid_stages.
Proof.
  unfold Stage.stage_rules.
  repeat match goal with
         | |- context [any_in ?t ?k] => destruct (any_in t k)
         | |- context [bool_decide (n ≤ ?b)] => destruct (bool_decide (n ≤ b))
         end; by apply valid_stage_by_computation.
Qed.

End StageFacts.

(** C3. On a chat history of more than two turns whose contents are text,
    the rule-based fallback is the reference priority definition: closing,
    searching (last user message), recommending (last assistant message),
    deciding, clarifying, exploring, opening (last user message), the first
    family with a matching keyword wins, and without a match the number of
    turns decides: at most 4 exploring, at most 8 clarifying, at most 12
    searching, otherwise recommending. *)
Theorem C3_rule_based_stage_is_priority_scan lower
    (chat_history : list message) :
  2 < length chat_history →
  Stage.textual chat_history →
  Stage._rule_based_stage_analysis lower chat_history
  = Stage.reference_stage lower chat_history.
Proof.
  intros Hlen Htext.
  unfold Stage._rule_based_stage_analysis, Stage.rule_based_try,
    Stage.reference_stage.
  destruct chat_history as [|msg rest] eqn:Hh; [simpl in Hlen; lia|].
  rewrite <- Hh in *. clear Hh msg rest.
  rewrite !lowered_contents_textual by done. cbn [mbind option_bind].
  rewrite bool_decide_eq_false_2 by lia.
  cbn [default]. rewrite !last_lowered.
  apply stage_rules_reference.
Qed.

Lemma C3_search_request_witness :
  Stage._rule_based_stage_analysis ascii_lower Samples.search_request
  = Stage.reference_stage ascii_lower Samples.search_request
  ∧ Stage._rule_based_stage_analysis ascii_lower Samples.search_request
    = py "searching".
Proof.
  split; [|reflexivity].
  apply C3_rule_based_stage_is_priority_scan.
  - simpl. lia.
  - repeat constructor; discriminate.
Defined.

(** C4. On a chat history of at most two turns (the empty one included)
    the stage classifier answers [opening], whatever the external
    classifier would reply. *)
Theorem C4_short_history_is_opening lower
    (gpt : list pyval → list pyval → nat → Stage.completion)
    (chat_history : list message) :
  length chat_history ≤ 2 →
  Stage.analyze_conversation_stage lower gpt chat_history = py "opening".
Proof.
  intros Hlen. unfold Stage.analyze_conversation_stage.
  destruct chat_history; [reflexivity|].
  by rewrite bool_decide_eq_true_2.
Qed.

Lemma C4_two_turns_witness :
  Stage.analyze_conversation_stage ascii_lower Samples.always_closing
    Samples.two_turns = py "opening".
Proof.
  apply C4_short_history_is_opening. simpl. lia.
Defined.

(** C5. The rule-based fallback is total: on every chat history, also the
    empty one, one whose messages lack a role or a content, and one whose
    content is not text (the exception handler answers then), it returns
    one of the seven stages. *)
Theorem C5_rule_based_stage_total lower (chat_history : list message) :
  Stage._rule_based_stage_analysis lower chat_history ∈ Stage.valid_stages.
Proof.
  unfold Stage._rule_based_stage_analysis, Stage.rule_based_try.
  destruct chat_history as [|msg rest]; [by apply valid_stage_by_computation|].
  destruct (Stage.lowered_contents lower user_role (msg :: rest))
    as [user_messages|]; [|by apply valid_stage_by_computation].
  destruct (Stage.lowered_contents lower assistant_role (msg :: rest))
    as [bot_messages|]; [|by apply valid_stage_by_computation].
  cbn [mbind option_bind default].
  destruct (bool_decide (length (msg :: rest) ≤ 2)); cbn [default].
  - by apply valid_stage_by_computation.
  - apply stage_rules_valid.
Qed.

Example rule_based_on_degenerate_histories :
  Stage._rule_based_stage_analysis ascii_lower [] = py "opening"
  ∧ Stage._rule_based_stage_analysis ascii_lower
      [Message None None; Message None None; Message None None]
    = py "exploring"
  ∧ Stage._rule_based_stage_analysis ascii_lower
      [Message (Some (PStr user_role)) (Some PNonStr)]
    = py "exploring".
Proof. repeat split; reflexivity. Qed.

(** ** Proactive-question gate *)

(** C6. Trigger 1: a user message whose stripped length is below 10 makes
    the gate answer true with the needs-guidance reason, for every draft
    response and context; no exemption for greetings precedes it. *)
Theorem C6_short_message_needs_guidance lower
    (user_message bot_response : pystr) (ctx : Proactive.context) :
  length (strip user_message) < 10 →
  Proactive.should_ask_proactive_question lower user_message bot_response ctx
  = (true, Proactive.reason_short).
Proof.
  intros Hshort. unfold Proactive.should_ask_proactive_question.
  by rewrite bool_decide_eq_true_2.
Qed.

Lemma C6_hello_witness :
  length (strip (py "hello")) = 5
  ∧ ∀ bot_response ctx,
      Proactive.should_ask_proactive_question ascii_lower (py "hello")
        bot_response ctx
      = (true, Proactive.reason_short).
Proof.
  split; [reflexivity|]. intros bot_response ctx.
  apply C6_short_message_needs_guidance. vm_compute. lia.
Defined.

Section ProactiveFacts.

Variable lower : pystr → pystr.

Lemma stalled_of_condition (ctx : Proactive.context) :
  6 < length (default [] (Proactive.conversation_history ctx)) →
  Proactive.stagnation_condition lower ctx →
  Proactive.stalled lower ctx = true.
Proof.
  intros Hlong (texts & Htexts & Htwo & Hwords & Hratio).
  unfold Proactive.stalled, Proactive.recent_user_texts in *.
  rewrite bool_decide_eq_true_2 by done.
  set (user_messages := filter _ _) in *.
  assert (length user_messages = length texts) as Hlen
    by (by eapply length_mapM).
  rewrite bool_decide_eq_true_2 by lia.
  unfold Proactive._is_conversation_stagnant, Proactive.stagnant_try.
  rewrite bool_decide_eq_false_2 by lia.
  rewrite Htexts. cbn [mbind option_bind].
  rewrite bool_decide_eq_false_2 by lia.
  cbn [default]. by apply bool_decide_eq_true_2.
Qed.

End ProactiveFacts.

(** C7, as stated, fails: on a four-turn history whose two user messages
    repeat one word (repetition ratio 5/6), with a user message and a draft
    on which triggers 1 to 4 are silent, the gate answers false; the
    stagnation test is only made on histories of more than six turns. *)
Lemma C7_short_history_counterexample :
  let ctx := Proactive.Context (Some Samples.four_repetitive_turns) in
  Proactive.quiet_before_stagnation ascii_lower Samples.neutral_message (py "ok")
  ∧ Proactive.stagnation_condition ascii_lower ctx
  ∧ Proactive.should_ask_proactive_question ascii_lower
      Samples.neutral_message (py "ok") ctx
    = (false, Proactive.reason_flowing).
Proof.
  split; [|split].
  - repeat split; try reflexivity.
    + vm_compute. lia.
    + intros [Hq _]. vm_compute in Hq. discriminate.
  - exists [py "a a a"; py "a a a"].
    split; [reflexivity|]. split; [simpl; lia|].
    split; [vm_compute; lia|]. by vm_compute.
  - reflexivity.
Qed.

(** C7, amended. Trigger 5: when triggers 1 to 4 do not fire and the
    conversation history has more than 6 turns, if its last 4 turns hold at
    least 2 user messages whose combined vocabulary has a repetition ratio
    above 0.6, the gate answers true with the stalled reason. *)
Theorem C7_stagnation_after_six_turns lower
    (user_message bot_response : pystr) (ctx : Proactive.context) :
  Proactive.quiet_before_stagnation lower user_message bot_response →
  6 < length (default [] (Proactive.conversation_history ctx)) →
  Proactive.stagnation_condition lower ctx →
  Proactive.should_ask_proactive_question lower user_message bot_response ctx
  = (true, Proactive.reason_stalled).
Proof.
  intros (Hlen & Hvague & Hresults & Hinterest) Hlong Hcond.
  unfold Proactive.should_ask_proactive_question.
  rewrite bool_decide_eq_false_2 by done.
  rewrite Hvague, Hinterest.
  destruct (contains (py "搜尋結果") bot_response) eqn:Hfound;
    destruct (contains (py "?") bot_response) eqn:Hmark;
    cbn [andb negb]; try (exfalso; by apply Hresults);
    by rewrite stalled_of_condition.
Qed.

(** The eight-turn history whose user turns are the word "activity",
    repeated: the last four turns hold two user messages with four words,
    one of them distinct, so the ratio is 3/4. *)
Lemma C7_eight_activity_turns_witness :
  let ctx := Proactive.Context (Some Samples.eight_activity_turns) in
  Proactive.recent_user_texts ascii_lower ctx
  = Some [py "activity activity"; py "activity activity"]
  ∧ (Proactive.repetition_ratio
       (Proactive.words_of [py "activity activity"; py "activity activity"])
     == 3 # 4)%Q
  ∧ Proactive.should_ask_proactive_question ascii_lower
      Samples.neutral_message (py "ok") ctx
    = (true, Proactive.reason_stalled).
Proof.
  split; [reflexivity|]. split; [reflexivity|].
  apply C7_stagnation_after_six_turns.
  - repeat split; try reflexivity.
    + vm_compute. lia.
    + intros [Hq _]. vm_compute in Hq. discriminate.
  - simpl. lia.
  - exists [py "activity activity"; py "activity activity"].
    split; [reflexivity|]. split; [simpl; lia|].
    split; [vm_compute; lia|]. by vm_compute.
Defined.

(** A single occurrence of the word in each of the two user messages
    gives the ratio 1/2, which is not above 0.6. *)
Example single_word_turns_do_not_stall :
  (Proactive.repetition_ratio
     (Proactive.words_of [py "activity"; py "activity"]) == 1 # 2)%Q
  ∧ Proactive._is_conversation_stagnant ascii_lower
      [Samples.user_says "activity"; Samples.user_says "activity"] = false.
Proof. split; reflexivity. Qed.

(** ** Profile store: reading *)

Section ReadFacts.

Import Store.

Lemma read_preference_dom (result : gmap pystr pref_value)
    (pref : UserPreference.t) :
  dom result = dom empty_preferences →
  dom (read_preference result pref) = dom empty_preferences.
Proof.
  intros Hdom. unfold read_preference.
  repeat case_decide; rewrite ?dom_alter_L, ?dom_insert_L, ?Hdom; try done.
  all: unfold empty_preferences; rewrite !dom_insert_L; set_solver.
Qed.

Lemma read_preferences_dom (rows : list UserPreference.t)
    (result : gmap pystr pref_value) :
  dom result = dom empty_preferences →
  dom (foldl read_preference result rows) = dom empty_preferences.
Proof.
  revert result. induction rows as [|row rows IH]; intros result Hdom; [done|].
  cbn [foldl]. by apply IH, read_preference_dom.
Qed.

(** The dict returned by [_get_user_preferences] always has its five keys,
    whatever rows are stored. *)
Lemma preferences_dict_has_five_keys (db : Session) (profile_id : Z) :
  size (_get_user_preferences db profile_id) = 5.
Proof.
  rewrite <- size_dom. unfold _get_user_preferences.
  rewrite read_preferences_dom by done. by rewrite size_dom.
Qed.

Lemma get_user_profile_preferences (db : Session) (session_id : pystr) (now : Z) :
  size (ProfileData.activity_preferences (snd (get_user_profile db session_id now)))
  = 5.
Proof.
  unfold get_user_profile.
  destruct (get_or_create_profile db session_id now) as [db' profile].
  apply preferences_dict_has_five_keys.
Qed.

Lemma count_true_cons (b : bool) (checks : list bool) :
  count_true (b :: checks)
  = ((if b then 1 else 0) + count_true checks)%Z.
Proof.
  unfold count_true. rewrite filter_cons.
  destruct b; case_decide; try done; cbn [length]; lia.
Qed.

Lemma count_true_nonneg (checks : list bool) : (0 ≤ count_true checks)%Z.
Proof. unfold count_true. lia. Qed.

End ReadFacts.

(** C10 (the code departs from the claim).  For every stored profile on
    which the derivation does not raise, the confidence is the number of
    satisfied checks among: some interest, the preference dict is not
    empty, some personality trait, visit count above 1 - divided by 4.
    The preference dict always has its five keys, so the second check
    counts for every profile, also one without any recorded preference,
    and the confidence is at least 1/4. *)
Theorem C10_confidence_counts_the_preference_dict (db : Session)
    (session_id : pystr) (now : Z) (r : Store.Recommendations.t) :
  let profile_data := snd (Store.get_user_profile db session_id now) in
  let checks :=
    [ bool_decide (0 < length (ProfileData.interests profile_data));
      true;
      bool_decide (0 < size (ProfileData.personality_traits profile_data));
      bool_decide (1 < ProfileData.visit_count profile_data)%Z ] in
  Store.recommendations_try profile_data = Some r →
  snd (Store.get_personalized_recommendations db session_id now) = r
  ∧ (Store.Recommendations.confidence r
     == inject_Z (Store.count_true checks) / 4)%Q
  ∧ (1 # 4 <= Store.Recommendations.confidence r)%Q.
Proof.
  intros profile_data checks Htry. subst checks.
  assert (size (ProfileData.activity_preferences profile_data) = 5) as Hsize
    by apply get_user_profile_preferences.
  split.
  { unfold Store.get_personalized_recommendations. subst profile_data.
    destruct (Store.get_user_profile db session_id now) as [db' pd].
    cbn [snd] in *. by rewrite Htry. }
  unfold Store.recommendations_try in Htry.
  destruct (Store.exceeds (default _ (_ !! py "social_level")) _)
    as [social|]; [|done].
  cbn [mbind option_bind] in Htry.
  assert (∃ message,
    Some (Store.Recommendations.Make
            (Store.Recommendations.suggested_categories r)
            (Store.Recommendations.suggested_locations r)
            (Store.Recommendations.suggested_times r) message
            (inject_Z (Store.count_true
               [ bool_decide (0 < length (ProfileData.interests profile_data));
                 bool_decide (0 < size (ProfileData.activity_preferences
                                          profile_data));
                 bool_decide (0 < size (ProfileData.personality_traits
                                          profile_data));
                 bool_decide (1 < ProfileData.visit_count profile_data)%Z ])
             / 4)) = Some r) as [message Hr].
  { destruct social.
    - eexists. cbn [mbind option_bind] in Htry. by injection Htry as <-.
    - destruct (Store.exceeds _ _) as [adventurous|]; [|done].
      eexists. cbn [mbind option_bind] in Htry. by injection Htry as <-. }
  clear Htry. injection Hr as <-.
  cbn [Store.Recommendations.confidence].
  rewrite (bool_decide_eq_true_2 (0 < size _)) by lia.
  split; [reflexivity|].
  rewrite !count_true_cons.
  set (n := Store.count_true []).
  assert (0 ≤ n)%Z by apply count_true_nonneg.
  unfold Qle, Qdiv, Qmult, Qinv, inject_Z. cbn.
  repeat match goal with |- context [bool_decide ?P] => destruct (bool_decide P) end;
    lia.
Qed.

(** A first visit to an empty store: no interest, no recorded preference,
    no trait, visit count 1, and yet the confidence is 1/4. *)
Lemma C10_fresh_profile_witness :
  let db := Samples.empty_store in
  let profile_data := snd (Store.get_user_profile db (py "s1") 0) in
  ProfileData.interests profile_data = []
  ∧ Store.has_recorded_preference (fst (Store.get_user_profile db (py "s1") 0)) 1
    = false
  ∧ ProfileData.personality_traits profile_data = ∅
  ∧ ProfileData.visit_count profile_data = 1%Z
  ∧ (Store.Recommendations.confidence
       (snd (Store.get_personalized_recommendations db (py "s1") 0)) == 1 # 4)%Q.
Proof.
  do 4 (split; [reflexivity|]).
  destruct (C10_confidence_counts_the_preference_dict Samples.empty_store
              (py "s1") 0
              (snd (Store.get_personalized_recommendations
                      Samples.empty_store (py "s1") 0)))
    as (_ & Hconfidence & _); [reflexivity|].
  rewrite Hconfidence. reflexivity.
Defined.

(** ** Profile store: interest upserts *)

Section FindFacts.

Context {A : Type} (P : A → Prop) `{!∀ x, Decision (P x)}.

(** Updating the row that a query finds, without touching what the query
    tests, leaves it the row found. *)
Lemma list_find_update (f : A → A) (l : list A) (i : nat) (x : A) :
  list_find P l = Some (i, x) → P (f x) →
  list_find P (<[i := f x]> l) = Some (i, f x).
Proof.
  intros (Hi & HP & Hleast)%list_find_Some HPf.
  apply list_find_insert_Some. right; left.
  split_and!; eauto using lookup_lt_Some.
Qed.

(** A row added when the query found nothing is the row found next. *)
Lemma list_find_added (l : list A) (y : A) :
  list_find P l = None → P y →
  list_find P (l ++ [y]) = Some (length l, y).
Proof.
  intros Hnone HPy. rewrite list_find_app_r by done.
  cbn. by rewrite decide_True.
Qed.

End FindFacts.

Section InterestFacts.

Import Store.

Lemma py_min_reinforce (c : Q) :
  (c <= 1)%Q → (c <= py_min (c + (1 # 10)) 1)%Q ∧ (py_min (c + (1 # 10)) 1 <= 1)%Q.
Proof. intros Hc. unfold py_min. case_decide; split; lra. Qed.

Lemma py_max_keeps (c k : Q) :
  (c <= py_max c k)%Q ∧ ((c <= 1)%Q → (k <= 1)%Q → (py_max c k <= 1)%Q).
Proof. unfold py_max. case_decide; split; intros; lra. Qed.

Lemma reinforce_confidence (db : Session) (profile_id : Z)
    (interest_name : pystr) (now : Z) :
  interest_confidence (_update_interests_db db profile_id [interest_name] now)
    profile_id interest_name
  = Some match interest_confidence db profile_id interest_name with
         | Some c => py_min (c + (1 # 10)) 1
         | None => 7 # 10
         end.
Proof.
  unfold interest_confidence, _update_interests_db. cbn [foldl upsert_interest].
  destruct (find_interest (user_interests db) profile_id interest_name)
    as [[i existing]|] eqn:Hfind; cbn [user_interests fmap option_fmap option_map].
  - rewrite app_nil_r. unfold find_interest in *.
    pose proof Hfind as (_ & Hkey & _)%list_find_Some.
    erewrite (list_find_update _ (reinforce_interest now)) by done.
    reflexivity.
  - unfold find_interest in *. cbn [app].
    erewrite list_find_added by done. reflexivity.
Qed.

Lemma explicit_confidence (db : Session) (session_id : pystr)
    (profile : UserProfile.t) (interest_name : pystr) (confidence : Q)
    (source : pystr) (now : Z) :
  find_profile db session_id = Some profile →
  interest_confidence
    (update_user_interest db session_id interest_name confidence source now)
    (UserProfile.id profile) interest_name
  = Some match interest_confidence db (UserProfile.id profile) interest_name with
         | Some c => py_max c confidence
         | None => confidence
         end.
Proof.
  intros Hprofile.
  unfold interest_confidence, update_user_interest, get_or_create_profile.
  rewrite Hprofile.
  destruct (find_interest (user_interests db) (UserProfile.id profile)
              interest_name) as [[i existing]|] eqn:Hfind;
    cbn [user_interests fmap option_fmap option_map].
  - unfold find_interest in *.
    pose proof Hfind as (_ & Hkey & _)%list_find_Some.
    erewrite (list_find_update _
      (λ e, UserInterest.Make (UserInterest.profile_id e)
              (UserInterest.interest e)
              (py_max (UserInterest.confidence e) confidence)
              (UserInterest.source e) (UserInterest.created_at e) now))
      by done.
    reflexivity.
  - unfold find_interest in *.
    erewrite list_find_added by done. reflexivity.
Qed.

Lemma upsert_step_monotone (profile_id : Z) (interest_name : pystr)
    (db db' : Session) :
  upsert_step profile_id interest_name db db' →
  confidence_bounded db profile_id interest_name →
  confidence_bounded db' profile_id interest_name
  ∧ ∀ c, interest_confidence db profile_id interest_name = Some c →
         ∃ c', interest_confidence db' profile_id interest_name = Some c'
               ∧ (c <= c')%Q.
Proof.
  intros Hstep Hbounded. unfold confidence_bounded in *.
  destruct Hstep as [db now|db session_id profile confidence source now
                              Hprofile <- Hcaller].
  - rewrite reinforce_confidence.
    destruct (interest_confidence db profile_id interest_name) as [c|].
    + destruct (py_min_reinforce c) as [Hup Hle]; [by apply Hbounded|].
      split; [by intros c' [= <-]|]. intros c0 [= <-]. eauto.
    + split; [intros c' [= <-]; lra|done].
  - rewrite (explicit_confidence _ _ _ _ _ _ _ Hprofile).
    destruct (interest_confidence db (UserProfile.id profile) interest_name)
      as [c|].
    + destruct (py_max_keeps c confidence) as [Hup Hle].
      split; [intros c' [= <-]; apply Hle; [by apply Hbounded|done]|].
      intros c0 [= <-]. eauto.
    + split; [by intros c' [= <-]|done].
Qed.

Lemma upsert_steps_monotone (profile_id : Z) (interest_name : pystr)
    (db db' : Session) :
  rtc (upsert_step profile_id interest_name) db db' →
  confidence_bounded db profile_id interest_name →
  confidence_bounded db' profile_id interest_name
  ∧ ∀ c, interest_confidence db profile_id interest_name = Some c →
         ∃ c', interest_confidence db' profile_id interest_name = Some c'
               ∧ (c <= c')%Q.
Proof.
  induction 1 as [db|db db1 db' Hstep _ IH]; intros Hbounded.
  - split; [done|]. intros c Hc. exists c. split; [done|lra].
  - destruct (upsert_step_monotone _ _ _ _ Hstep Hbounded) as [Hb1 Hm1].
    destruct (IH Hb1) as [Hb' Hm']. split; [done|].
    intros c Hc. destruct (Hm1 c Hc) as (c1 & Hc1 & Hle1).
    destruct (Hm' c1 Hc1) as (c' & Hc' & Hle'). exists c'. split; [done|lra].
Qed.

End InterestFacts.

(** C2, as stated, fails for [update_user_interest]: with the interest
    stored at 0.7, the upsert the agent issues (confidence 0.7) leaves it at
    0.7, where the claim has min(0.7 + 0.1, 1.0) = 0.8. *)
Lemma C2_explicit_upsert_counterexample :
  Store.find_profile Samples.music_store (py "s1")
  = Some (UserProfile.Make 1 (py "s1") 1 (Some 0%Z) (Some 0%float) (Some 0%Z) ∅)
  ∧ Store.interest_confidence Samples.music_store 1 (py "音樂") = Some (7 # 10)
  ∧ Store.interest_confidence
      (Store.update_user_interest Samples.music_store (py "s1") (py "音樂")
         (7 # 10) (py "conversation") 5)
      1 (py "音樂")
    = Some (7 # 10)
  ∧ ¬ (7 # 10 == py_min ((7 # 10) + (1 # 10)) 1)%Q.
Proof.
  split; [reflexivity|]. split; [reflexivity|]. split; [reflexivity|].
  by vm_compute.
Qed.

(** C2, amended.  [_update_interests_db] sets the confidence of an existing
    (profile, name) row to min(confidence + 0.1, 1.0) and otherwise creates
    the row with 0.7; [update_user_interest] sets it to
    max(confidence, caller's confidence) and otherwise creates the row with
    the caller's confidence.  Hence, when the stored confidence is at most
    1.0 and callers pass at most 1.0, any sequence of such upserts of the
    same (profile, name) never decreases the confidence and never drives it
    above 1.0. *)
Theorem C2_interest_upserts_monotone_and_clamped :
  (∀ db profile_id interest_name now,
     Store.interest_confidence
       (Store._update_interests_db db profile_id [interest_name] now)
       profile_id interest_name
     = Some match Store.interest_confidence db profile_id interest_name with
            | Some c => py_min (c + (1 # 10)) 1
            | None => 7 # 10
            end)
  ∧ (∀ db session_id profile interest_name confidence source now,
       Store.find_profile db session_id = Some profile →
       Store.interest_confidence
         (Store.update_user_interest db session_id interest_name confidence
            source now)
         (UserProfile.id profile) interest_name
       = Some match Store.interest_confidence db (UserProfile.id profile)
                      interest_name with
              | Some c => py_max c confidence
              | None => confidence
              end)
  ∧ (∀ profile_id interest_name db db',
       rtc (Store.upsert_step profile_id interest_name) db db' →
       Store.confidence_bounded db profile_id interest_name →
       Store.confidence_bounded db' profile_id interest_name
       ∧ ∀ c, Store.interest_confidence db profile_id interest_name = Some c →
              ∃ c', Store.interest_confidence db' profile_id interest_name
                    = Some c' ∧ (c <= c')%Q).
Proof.
  split; [exact reinforce_confidence|].
  split; [exact explicit_confidence|].
  exact upsert_steps_monotone.
Qed.

(** Four reinforcements and one explicit upsert of "音樂" from 0.7: the
    confidence ends at 1.0. *)
Lemma C2_music_sequence_witness :
  let step1 := Store._update_interests_db Samples.music_store 1 [py "音樂"] 1 in
  let step2 := Store.update_user_interest step1 (py "s1") (py "音樂") (7 # 10)
                 (py "conversation") 2 in
  let step3 := Store._update_interests_db step2 1 [py "音樂"] 3 in
  let step4 := Store._update_interests_db step3 1 [py "音樂"] 4 in
  let step5 := Store._update_interests_db step4 1 [py "音樂"] 5 in
  (∃ c, Store.interest_confidence step5 1 (py "音樂") = Some c
        ∧ (7 # 10 <= c)%Q ∧ (c <= 1)%Q)
  ∧ (∃ c, Store.interest_confidence step5 1 (py "音樂") = Some c ∧ (c == 1)%Q).
Proof.
  intros step1 step2 step3 step4 step5.
  split; [|eexists; split; reflexivity].
  destruct (proj2 (proj2 C2_interest_upserts_monotone_and_clamped)
              1%Z (py "音樂") Samples.music_store step5) as [Hbounded Hmono].
  - apply (rtc_l _ _ step1); [apply Store.reinforce_step|].
    apply (rtc_l _ _ step2).
    { eapply Store.explicit_step; [reflexivity|reflexivity|by vm_compute]. }
    apply (rtc_l _ _ step3); [apply Store.reinforce_step|].
    apply (rtc_l _ _ step4); [apply Store.reinforce_step|].
    apply (rtc_l _ _ step5); [apply Store.reinforce_step|].
    apply rtc_refl.
  - intros c [= <-]. by vm_compute.
  - destruct (Hmono (7 # 10)) as (c & Hc & Hle); [reflexivity|].
    exists c. split; [done|]. split; [done|]. by apply Hbounded.
Defined.

(** ** Profile store: preference round trip *)

Ltac key_neq :=
  let H := fresh in intros H; vm_compute in H; discriminate H.

Ltac decide_keys :=
  repeat match goal with
         | |- context [decide (?a = ?b)] =>
           first [ rewrite (decide_True (P := a = b)) by reflexivity
                 | rewrite (decide_False (P := a = b)) by key_neq ]
         end.

Ltac absurd_keys :=
  match goal with
  | H : py _ = py _ |- _ => vm_compute in H; discriminate H
  | H : ?a ≠ ?a |- _ => by destruct H
  end.

Ltac lookup_keys :=
  repeat first
    [ rewrite lookup_alter_eq
    | rewrite lookup_insert_eq
    | rewrite lookup_alter_ne by key_neq
    | rewrite lookup_insert_ne by key_neq ].

Section ListFacts.

Context {A : Type} (P : A → Prop) `{!∀ x, Decision (P x)}.

(** Replacing a row by one that the query cannot tell apart leaves what the
    query selects, seen through [f]. *)
Lemma fmap_filter_insert {B} (f : A → B) (l : list A) (i : nat) (x y : A) :
  l !! i = Some x → (P y ↔ P x) → f y = f x →
  f <$> filter P (<[i := y]> l) = f <$> filter P l.
Proof.
  intros Hi HP Hf.
  rewrite insert_take_drop by eauto using lookup_lt_Some.
  rewrite <- (take_drop_middle l i x Hi) at 3.
  rewrite !filter_app, !filter_cons, !fmap_app.
  destruct (decide (P y)) as [Hy|Hy], (decide (P x)) as [Hx|Hx];
    try tauto; by rewrite ?fmap_cons, ?Hf.
Qed.

Lemma length_filter_insert (l : list A) (i : nat) (x y : A) :
  l !! i = Some x → (P y ↔ P x) →
  length (filter P (<[i := y]> l)) = length (filter P l).
Proof.
  intros Hi HP.
  rewrite <- (length_fmap (λ _, ()) (filter P (<[i := y]> l))).
  rewrite (fmap_filter_insert (λ _, ()) l i x y) by done.
  by rewrite length_fmap.
Qed.

Lemma filter_none (l : list A) : Forall (λ x, ¬ P x) l → filter P l = [].
Proof.
  induction 1 as [|x l Hx _ IH]; [done|]. by rewrite filter_cons_False.
Qed.

Lemma last_all_equal (l : list A) (v : A) :
  l ≠ [] → Forall (λ x, x = v) l → last l = Some v.
Proof.
  intros Hne Hall. destruct (last l) as [x|] eqn:Hlast.
  - apply last_Some_elem_of in Hlast.
    by rewrite (proj1 (Forall_forall _ _) Hall x Hlast).
  - by apply last_None in Hlast.
Qed.

End ListFacts.

Lemma length_filter_fmap_eq {A B} `{EqDecision B} (f : A → B) (v : B)
    (l : list A) :
  length (filter (λ y, y = v) (f <$> l)) = length (filter (λ x, f x = v) l).
Proof.
  induction l as [|x l IH]; [done|].
  rewrite fmap_cons, !filter_cons.
  destruct (decide (f x = v)); cbn [length]; by rewrite IH.
Qed.

Section PreferenceFacts.

Import Store.

Lemma read_preference_list_bucket (key type : pystr)
    (result : gmap pystr pref_value) (pref : UserPreference.t) :
  (key, type) ∈ list_buckets →
  read_preference result pref !! key
  = if decide (UserPreference.preference_type pref = type)
    then append_to (UserPreference.preference_value pref) <$> result !! key
    else result !! key.
Proof.
  intros Hkey. unfold list_buckets in Hkey.
  repeat (apply elem_of_cons in Hkey as [[= -> ->]|Hkey]);
    [| | |by apply elem_of_nil in Hkey].
  all: unfold read_preference.
  all: generalize (UserPreference.preference_type pref) as t; intros t.
  all: repeat case_decide; subst; try absurd_keys; by lookup_keys.
Qed.

Lemma read_preference_scalar_bucket (key type : pystr)
    (result : gmap pystr pref_value) (pref : UserPreference.t) :
  (key, type) ∈ scalar_buckets →
  read_preference result pref !! key
  = if decide (UserPreference.preference_type pref = type)
    then Some (PScalar (Some (UserPreference.preference_value pref)))
    else result !! key.
Proof.
  intros Hkey. unfold scalar_buckets in Hkey.
  repeat (apply elem_of_cons in Hkey as [[= -> ->]|Hkey]);
    [| |by apply elem_of_nil in Hkey].
  all: unfold read_preference.
  all: generalize (UserPreference.preference_type pref) as t; intros t.
  all: repeat case_decide; subst; try absurd_keys; by lookup_keys.
Qed.

Lemma read_list_bucket_from (key type : pystr) (rows : list UserPreference.t)
    (result : gmap pystr pref_value) (values : list pystr) :
  (key, type) ∈ list_buckets →
  result !! key = Some (PList values) →
  foldl read_preference result rows !! key
  = Some (PList (values ++ (UserPreference.preference_value
                            <$> filter (λ row, UserPreference.preference_type row = type)
                                  rows))).
Proof.
  intros Hkey. revert result values.
  induction rows as [|row rows IH]; intros result values Hresult.
  { cbn. by rewrite app_nil_r. }
  cbn [foldl]. rewrite filter_cons.
  pose proof (read_preference_list_bucket key type result row Hkey) as Hstep.
  case_decide.
  - rewrite Hresult in Hstep. cbn in Hstep.
    rewrite (IH _ _ Hstep), fmap_cons, <- app_assoc. reflexivity.
  - rewrite Hresult in Hstep. by rewrite (IH _ _ Hstep).
Qed.

Lemma read_scalar_bucket_from (key type : pystr) (rows : list UserPreference.t)
    (result : gmap pystr pref_value) (value : option pystr) :
  (key, type) ∈ scalar_buckets →
  result !! key = Some (PScalar value) →
  foldl read_preference result rows !! key
  = Some (PScalar
      match last (UserPreference.preference_value
                  <$> filter (λ row, UserPreference.preference_type row = type)
                        rows) with
      | Some v => Some v
      | None => value
      end).
Proof.
  intros Hkey. revert result value.
  induction rows as [|row rows IH]; intros result value Hresult; [done|].
  cbn [foldl]. rewrite filter_cons.
  pose proof (read_preference_scalar_bucket key type result row Hkey) as Hstep.
  case_decide.
  - rewrite (IH _ _ Hstep), fmap_cons.
    destruct (UserPreference.preference_value <$> filter _ rows) as [|v vs] eqn:Hvs;
      [done|].
    rewrite last_cons_cons.
    destruct (last (v :: vs)) eqn:Hlast; [done|].
    by apply last_None in Hlast.
  - rewrite Hresult in Hstep. by rewrite (IH _ _ Hstep).
Qed.

Lemma empty_preferences_list_bucket key type :
  (key, type) ∈ list_buckets → empty_preferences !! key = Some (PList []).
Proof.
  intros Hkey. unfold list_buckets in Hkey.
  repeat (apply elem_of_cons in Hkey as [[= -> ->]|Hkey]);
    [| | |by apply elem_of_nil in Hkey]; reflexivity.
Qed.

Lemma empty_preferences_scalar_bucket key type :
  (key, type) ∈ scalar_buckets → empty_preferences !! key = Some (PScalar None).
Proof.
  intros Hkey. unfold scalar_buckets in Hkey.
  repeat (apply elem_of_cons in Hkey as [[= -> ->]|Hkey]);
    [| |by apply elem_of_nil in Hkey]; reflexivity.
Qed.

(** What the read path shows under a list key and under a single-value
    key. *)
Lemma read_list_bucket (db : Session) (profile_id : Z) (key type : pystr) :
  (key, type) ∈ list_buckets →
  _get_user_preferences db profile_id !! key
  = Some (PList (typed_values db profile_id type)).
Proof.
  intros Hkey. unfold _get_user_preferences, typed_values.
  by rewrite (read_list_bucket_from key type _ _ [] Hkey
                (empty_preferences_list_bucket _ _ Hkey)).
Qed.

Lemma read_scalar_bucket (db : Session) (profile_id : Z) (key type : pystr) :
  (key, type) ∈ scalar_buckets →
  _get_user_preferences db profile_id !! key
  = Some (PScalar (last (typed_values db profile_id type))).
Proof.
  intros Hkey. unfold _get_user_preferences, typed_values.
  rewrite (read_scalar_bucket_from key type _ _ None Hkey
             (empty_preferences_scalar_bucket _ _ Hkey)).
  by destruct (last _).
Qed.


(** The effect of upserting one preference on the table. *)
Lemma single_upsert_rows (db : Session) (profile_id : Z)
    (activity_preferences : gmap pystr pref_value) (key type value : pystr)
    (now : Z) :
  (key, type) ∈ preference_mappings →
  value ≠ [] →
  only_preference activity_preferences key value →
  user_preferences (_update_preferences_db db profile_id activity_preferences now)
  = match find_preference (user_preferences db) profile_id type value with
    | Some (i, existing) =>
      <[i := reinforce_preference now existing]> (user_preferences db)
    | None =>
      user_preferences db
      ++ [UserPreference.Make profile_id type value (7 # 10) now]
    end.
Proof.
  intros Hkey Hvalue Honly.
  unfold _update_preferences_db, preference_mappings in *.
  cbn [foldl]. rewrite !Honly.
  repeat (apply elem_of_cons in Hkey as [[= -> ->]|Hkey]);
    [| | | | |by apply elem_of_nil in Hkey].
  all: decide_keys; cbn [foldl]; unfold upsert_preference.
  all: destruct value as [|c value]; [done|].
  all: destruct (find_preference _ _ _ _) as [[i existing]|];
    cbn [user_preferences]; by rewrite ?app_nil_r.
Qed.



Lemma surfaced_list_bucket (db : Session) (profile_id : Z)
    (key type value : pystr) :
  (key, type) ∈ list_buckets →
  surfaced value (_get_user_preferences db profile_id !! key)
  = stored_copies db profile_id type value.
Proof.
  intros Hkey. rewrite (read_list_bucket _ _ _ _ Hkey).
  unfold surfaced, typed_values, stored_copies.
  rewrite length_filter_fmap_eq, !list_filter_filter.
  f_equal. apply list_filter_iff. intros row. tauto.
Qed.

Lemma typed_values_as_one_filter (db : Session) (profile_id : Z) (type : pystr) :
  typed_values db profile_id type
  = UserPreference.preference_value
    <$> filter (λ row, UserPreference.preference_type row = type
                       ∧ UserPreference.profile_id row = profile_id)
          (user_preferences db).
Proof. unfold typed_values. by rewrite list_filter_filter. Qed.

(** The upsert of one preference when its row exists: the row is
    reinforced in place. *)
Lemma single_upsert_existing (db : Session) (profile_id : Z)
    (activity_preferences : gmap pystr pref_value) (key type value : pystr)
    (now : Z) (i : nat) (existing : UserPreference.t) :
  (key, type) ∈ preference_mappings →
  value ≠ [] →
  only_preference activity_preferences key value →
  find_preference (user_preferences db) profile_id type value
  = Some (i, existing) →
  let db' := _update_preferences_db db profile_id activity_preferences now in
  user_preferences db'
  = <[i := reinforce_preference now existing]> (user_preferences db)
  ∧ find_preference (user_preferences db') profile_id type value
    = Some (i, reinforce_preference now existing)
  ∧ stored_copies db' profile_id type value
    = stored_copies db profile_id type value
  ∧ 1 ≤ stored_copies db profile_id type value
  ∧ typed_values db' profile_id type = typed_values db profile_id type
  ∧ value ∈ typed_values db profile_id type.
Proof.
  intros Hkey Hvalue Honly Hfind db'.
  assert (user_preferences db'
          = <[i := reinforce_preference now existing]> (user_preferences db))
    as Hrows.
  { subst db'. rewrite (single_upsert_rows _ _ _ _ _ _ _ Hkey Hvalue Honly).
    by rewrite Hfind. }
  unfold find_preference in *.
  pose proof Hfind as (Hi & (Hpid & Htype & Hval) & _)%list_find_Some.
  assert (existing ∈ user_preferences db) as Hin
    by eauto using list_elem_of_lookup_2.
  split; [done|]. split.
  { rewrite Hrows.
    by apply (list_find_update _ (reinforce_preference now)). }
  split.
  { unfold stored_copies. rewrite Hrows.
    by apply (length_filter_insert _ _ _ existing). }
  split.
  { unfold stored_copies.
    assert (existing ∈ filter
              (λ row, UserPreference.profile_id row = profile_id
                      ∧ UserPreference.preference_type row = type
                      ∧ UserPreference.preference_value row = value)
              (user_preferences db)) as Hmem
      by (by apply list_elem_of_filter).
    destruct (filter _ (user_preferences db)); [by apply elem_of_nil in Hmem|].
    cbn [length]. lia. }
  split.
  { rewrite !typed_values_as_one_filter, Hrows.
    by apply (fmap_filter_insert _ _ _ _ existing). }
  rewrite typed_values_as_one_filter. apply list_elem_of_fmap.
  exists existing. split; [done|]. by apply list_elem_of_filter.
Qed.

(** The upsert of one preference when no row exists: one row is added. *)
Lemma single_upsert_new (db : Session) (profile_id : Z)
    (activity_preferences : gmap pystr pref_value) (key type value : pystr)
    (now : Z) :
  (key, type) ∈ preference_mappings →
  value ≠ [] →
  only_preference activity_preferences key value →
  find_preference (user_preferences db) profile_id type value = None →
  let db' := _update_preferences_db db profile_id activity_preferences now in
  let added := UserPreference.Make profile_id type value (7 # 10) now in
  user_preferences db' = user_preferences db ++ [added]
  ∧ find_preference (user_preferences db') profile_id type value
    = Some (length (user_preferences db), added)
  ∧ stored_copies db profile_id type value = 0
  ∧ stored_copies db' profile_id type value = 1
  ∧ typed_values db' profile_id type = typed_values db profile_id type ++ [value].
Proof.
  intros Hkey Hvalue Honly Hfind db' added.
  assert (user_preferences db' = user_preferences db ++ [added]) as Hrows.
  { subst db'. rewrite (single_upsert_rows _ _ _ _ _ _ _ Hkey Hvalue Honly).
    by rewrite Hfind. }
  unfold find_preference in *.
  assert (filter (λ row, UserPreference.profile_id row = profile_id
                         ∧ UserPreference.preference_type row = type
                         ∧ UserPreference.preference_value row = value)
            (user_preferences db) = []) as Hnone
    by (apply filter_none; by apply list_find_None in Hfind).
  split; [done|]. split.
  { rewrite Hrows. by apply list_find_added. }
  split; [unfold stored_copies; by rewrite Hnone|].
  split.
  { unfold stored_copies. rewrite Hrows, filter_app, Hnone.
    by rewrite filter_cons_True. }
  rewrite !typed_values_as_one_filter, Hrows, filter_app, fmap_app.
  by rewrite filter_cons_True.
Qed.


(** Both cases together. *)
Lemma single_upsert_summary (db : Session) (profile_id : Z)
    (activity_preferences : gmap pystr pref_value) (key type value : pystr)
    (now : Z) :
  (key, type) ∈ preference_mappings →
  value ≠ [] →
  only_preference activity_preferences key value →
  let db' := _update_preferences_db db profile_id activity_preferences now in
  is_Some (find_preference (user_preferences db') profile_id type value)
  ∧ stored_copies db' profile_id type value
    = Nat.max 1 (stored_copies db profile_id type value)
  ∧ (Forall (λ v, v = value) (typed_values db profile_id type) →
     Forall (λ v, v = value) (typed_values db' profile_id type)
     ∧ last (typed_values db' profile_id type) = Some value).
Proof.
  intros Hkey Hvalue Honly db'.
  destruct (find_preference (user_preferences db) profile_id type value)
    as [[i existing]|] eqn:Hfind.
  - destruct (single_upsert_existing _ _ _ _ _ _ now _ _ Hkey Hvalue Honly Hfind)
      as (_ & Hfound & Hstored & Hone & Hvalues & Hmem).
    fold db' in Hfound, Hstored, Hvalues.
    split; [by eexists|]. split; [lia|].
    intros Hall. rewrite Hvalues. split; [done|].
    apply last_all_equal; [|done].
    intros Hnil. rewrite Hnil in Hmem. by apply elem_of_nil in Hmem.
  - destruct (single_upsert_new _ _ _ _ _ _ now Hkey Hvalue Honly Hfind)
      as (_ & Hfound & Hzero & Hstored & Hvalues).
    fold db' in Hfound, Hstored, Hvalues.
    split; [by eexists|]. split; [lia|].
    intros Hall. rewrite Hvalues. split; [|apply last_snoc].
    apply Forall_app. split; [done|]. by apply Forall_singleton.
Qed.

End PreferenceFacts.

(** C9, as stated, fails for the single-valued buckets: after the group
    sizes "A" and "B" are stored, upserting "A" again reinforces its row,
    and the profile read back shows "B", the value of the last row. *)
Lemma C9_group_size_counterexample :
  let db1 := Store._update_preferences_db Samples.empty_store 1
               (Samples.group_is "A") 1 in
  let db2 := Store._update_preferences_db db1 1 (Samples.group_is "B") 2 in
  let db3 := Store._update_preferences_db db2 1 (Samples.group_is "A") 3 in
  Store._get_user_preferences db3 1 !! Store.k_group
  = Some (PScalar (Some (py "B")))
  ∧ Store.surfaced (py "A") (Store._get_user_preferences db3 1 !! Store.k_group)
    = 0.
Proof. split; reflexivity. Qed.

(** C9, amended.  Upserting one preference (type, value), value not empty,
    then reading the profile: for the types category, location and time
    the value is listed exactly once in the bucket of its type, provided at
    most one row was stored for it before; for the types group-size and
    budget the bucket shows the value, provided the profile stores no other
    value of that type.  Doing the identical upsert again finds the row
    and only reinforces it - no row is added - and the profile read back
    shows the same. *)
Theorem C9_preference_round_trip (db : Session) (profile_id : Z)
    (activity_preferences : gmap pystr pref_value) (key type value : pystr)
    (now now' : Z) :
  (key, type) ∈ Store.preference_mappings →
  value ≠ [] →
  Store.only_preference activity_preferences key value →
  let db1 := Store._update_preferences_db db profile_id activity_preferences now in
  let db2 := Store._update_preferences_db db1 profile_id activity_preferences now' in
  ((key, type) ∈ Store.list_buckets →
   Store.stored_copies db profile_id type value ≤ 1 →
   Store.surfaced value (Store._get_user_preferences db1 profile_id !! key) = 1
   ∧ Store.surfaced value (Store._get_user_preferences db2 profile_id !! key) = 1)
  ∧ ((key, type) ∈ Store.scalar_buckets →
     Forall (λ v, v = value) (Store.typed_values db profile_id type) →
     Store._get_user_preferences db1 profile_id !! key
     = Some (PScalar (Some value))
     ∧ Store._get_user_preferences db2 profile_id !! key
       = Some (PScalar (Some value)))
  ∧ (∃ i existing,
       Store.find_preference (user_preferences db1) profile_id type value
       = Some (i, existing)
       ∧ user_preferences db2
         = <[i := Store.reinforce_preference now' existing]> (user_preferences db1))
  ∧ length (user_preferences db2) = length (user_preferences db1).
Proof.
  intros Hkey Hvalue Honly db1 db2.
  destruct (single_upsert_summary db profile_id _ _ _ _ now Hkey Hvalue Honly)
    as ([[i existing] Hfound1] & Hstored1 & Hscalar1).
  fold db1 in Hfound1, Hstored1, Hscalar1.
  destruct (single_upsert_summary db1 profile_id _ _ _ _ now' Hkey Hvalue Honly)
    as (_ & Hstored2 & Hscalar2).
  fold db2 in Hstored2, Hscalar2.
  destruct (single_upsert_existing db1 _ _ _ _ _ now' _ _ Hkey Hvalue Honly
              Hfound1) as (Hrows2 & _).
  fold db2 in Hrows2.
  split; [|split; [|split]].
  - intros Hlist Hcopies.
    rewrite !(surfaced_list_bucket _ _ _ _ _ Hlist). lia.
  - intros Hscalar Hall.
    destruct (Hscalar1 Hall) as [Hall1 Hlast1].
    destruct (Hscalar2 Hall1) as [_ Hlast2].
    rewrite !(read_scalar_bucket _ _ _ _ Hscalar). by rewrite Hlast1, Hlast2.
  - by exists i, existing.
  - by rewrite Hrows2, length_insert.
Qed.

(** The category "音樂" written twice to a fresh profile, and the group
    size "小團體" given as a single string. *)
Lemma C9_round_trip_witness :
  let db1 := Store._update_preferences_db Samples.empty_store 1
               (Samples.category_is "音樂") 1 in
  let db2 := Store._update_preferences_db db1 1 (Samples.category_is "音樂") 2 in
  Store.surfaced (py "音樂") (Store._get_user_preferences db1 1 !! Store.k_categories) = 1
  ∧ Store.surfaced (py "音樂") (Store._get_user_preferences db2 1 !! Store.k_categories) = 1
  ∧ length (user_preferences db2) = 1
  ∧ (UserPreference.confidence <$> user_preferences db2)
    = [py_min ((7 # 10) + (1 # 10)) 1]
  ∧ Store._get_user_preferences
      (Store._update_preferences_db Samples.empty_store 1
         (Samples.group_is "小團體") 1) 1 !! Store.k_group
    = Some (PScalar (Some (py "小團體"))).
Proof.
  intros db1 db2.
  assert (Store._get_user_preferences
            (Store._update_preferences_db Samples.empty_store 1
               (Samples.group_is "小團體") 1) 1 !! Store.k_group
          = Some (PScalar (Some (py "小團體")))) as Hgroup.
  { destruct (C9_preference_round_trip Samples.empty_store 1
                (Samples.group_is "小團體") Store.k_group (py "group_size")
                (py "小團體") 1 2) as (_ & Hscalar & _).
    - unfold Store.preference_mappings. rewrite !elem_of_cons. tauto.
    - done.
    - intros k. unfold Store.values_at, Samples.group_is.
      rewrite lookup_singleton. by repeat case_decide.
    - destruct Hscalar as [H1 _]; [apply elem_of_cons; by left|constructor|].
      exact H1. }
  destruct (C9_preference_round_trip Samples.empty_store 1
              (Samples.category_is "音樂") Store.k_categories (py "category")
              (py "音樂") 1 2) as (Hlist & _ & _ & Hlength).
  - apply elem_of_cons. by left.
  - done.
  - intros k. unfold Store.values_at, Samples.category_is.
    rewrite lookup_singleton. by repeat case_decide.
  - destruct Hlist as [H1 H2]; [apply elem_of_cons; by left|vm_compute; lia|].
    split; [exact H1|]. split; [exact H2|]. split; [reflexivity|].
    split; [reflexivity|exact Hgroup].
Defined.

(** ** Profile store: cross-session merge *)

Section MergeNumbers.




End MergeNumbers.

Section MergeInterests.

Import Store.

Implicit Types (i j v : InterestDict.t) (u : list (pystr * InterestDict.t)).









End MergeInterests.

Section MergeSorting.

Import Store.

Lemma insert_desc_permutation (x : InterestDict.t) (l : list InterestDict.t) :
  insert_desc x l ≡ₚ x :: l.
Proof.
  induction l as [|y l IH]; cbn [insert_desc]; [done|].
  case_decide; [|done]. rewrite IH. apply Permutation_swap.
Qed.

Lemma sorted_by_confidence_permutation (l : list InterestDict.t) :
  sorted_by_confidence l ≡ₚ l.
Proof.
  induction l as [|x l IH]; cbn; [done|].
  by rewrite insert_desc_permutation, IH.
Qed.

Lemma insert_desc_descending (x : InterestDict.t) (l : list InterestDict.t) :
  descending l → descending (insert_desc x l).
Proof.
  unfold descending.
  induction 1 as [|y l Hsorted IH Hall]; cbn [insert_desc].
  { repeat constructor. }
  case_decide as Hlt.
  - constructor; [done|].
    rewrite insert_desc_permutation. constructor; [lra|done].
  - constructor; [by constructor|].
    constructor; [lra|].
    eapply Forall_impl; [exact Hall|]. cbn. intros z Hz. lra.
Qed.

Lemma sorted_by_confidence_descending (l : list InterestDict.t) :
  descending (sorted_by_confidence l).
Proof.
  induction l as [|x l IH]; cbn; [constructor|].
  by apply insert_desc_descending.
Qed.





End MergeSorting.

Section MergePreferences.

Import Store.






End MergePreferences.




(** * Further properties *)

(** ** Stage classifier: the external classification *)

Section ClassifierFacts.

Variable lower : pystr → pystr.

Lemma rule_based_stage_valid (chat_history : list message) :
  Stage._rule_based_stage_analysis lower chat_history ∈ Stage.valid_stages.
Proof.
  unfold Stage._rule_based_stage_analysis.
  destruct (Stage.rule_based_try lower chat_history) as [stage|] eqn:Htry;
    [|by apply valid_stage_by_computation].
  unfold Stage.rule_based_try in Htry.
  destruct chat_history as [|msg rest];
    [injection Htry as <-; by apply valid_stage_by_computation|].
  destruct (Stage.lowered_contents lower user_role (msg :: rest)); [|done].
  destruct (Stage.lowered_contents lower assistant_role (msg :: rest)); [|done].
  cbn [mbind option_bind] in Htry.
  destruct (bool_decide (length (msg :: rest) ≤ 2)); injection Htry as <-;
    cbn [default from_option id].
  - by apply valid_stage_by_computation.
  - apply stage_rules_valid.
Qed.

Lemma rule_based_short_textual (chat_history : list message) :
  Stage.textual chat_history → length chat_history ≤ 2 →
  Stage._rule_based_stage_analysis lower chat_history = py "opening".
Proof.
  intros Htext Hlen.
  unfold Stage._rule_based_stage_analysis, Stage.rule_based_try.
  destruct chat_history as [|msg rest] eqn:Hh; [done|].
  rewrite <- Hh in *. rewrite !lowered_contents_textual by done.
  cbn [mbind option_bind]. by rewrite bool_decide_eq_true_2.
Qed.

Lemma disjoint_filters_length {A} (P Q : A → Prop)
    `{!∀ x, Decision (P x)} `{!∀ x, Decision (Q x)} (l : list A) :
  (∀ x, P x → Q x → False) →
  length (filter P l) + length (filter Q l) ≤ length l.
Proof.
  intros Hdisjoint. induction l as [|x l IH]; [done|].
  rewrite !filter_cons.
  destruct (decide (P x)), (decide (Q x)); cbn [length]; try lia.
  exfalso. eauto.
Qed.

Lemma last_n_length {A} (n : nat) (l : list A) : length (last_n n l) ≤ n.
Proof. unfold last_n. rewrite length_drop. lia. Qed.

Lemma recent_contents_bound (chat_history : list message) :
  length (Stage.content_or_empty
          <$> filter (has_role user_role) (last_n 6 chat_history))
  + length (Stage.content_or_empty
            <$> filter (has_role assistant_role) (last_n 6 chat_history))
  ≤ 6.
Proof.
  rewrite !length_fmap.
  pose proof (last_n_length 6 chat_history).
  pose proof (disjoint_filters_length (has_role user_role)
                (has_role assistant_role) (last_n 6 chat_history)) as Hsum.
  enough (length (filter (has_role user_role) (last_n 6 chat_history))
          + length (filter (has_role assistant_role) (last_n 6 chat_history))
          ≤ length (last_n 6 chat_history)) by lia.
  apply Hsum. unfold has_role. intros msg Hu Ha. rewrite Hu in Ha.
  vm_compute in Ha. discriminate Ha.
Qed.

End ClassifierFacts.

(** X1. Whatever the external classifier replies - a stage name, any other
    text, or nothing - the stage classifier returns one of the seven
    stages. *)
Theorem X1_classifier_returns_a_stage lower
    (gpt : list pyval → list pyval → nat → Stage.completion)
    (chat_history : list message) :
  Stage.analyze_conversation_stage lower gpt chat_history ∈ Stage.valid_stages.
Proof.
  unfold Stage.analyze_conversation_stage.
  destruct chat_history as [|msg rest]; [by apply valid_stage_by_computation|].
  destruct (bool_decide (length (msg :: rest) ≤ 2));
    [by apply valid_stage_by_computation|].
  destruct (gpt _ _ _) as [text|]; [|apply rule_based_stage_valid].
  destruct (bool_decide (lower (strip text) ∈ Stage.valid_stages)) eqn:Hvalid.
  - by apply bool_decide_eq_true in Hvalid.
  - apply rule_based_stage_valid.
Qed.

(** X2. When the external classifier is unavailable, the stage classifier
    gives exactly the answer of the rule-based analysis, on every chat
    history whose contents are text. *)
Theorem X2_unavailable_classifier_is_rule_based lower
    (gpt : list pyval → list pyval → nat → Stage.completion)
    (chat_history : list message) :
  Stage.textual chat_history →
  (∀ users bots n, gpt users bots n = Stage.Failed) →
  Stage.analyze_conversation_stage lower gpt chat_history
  = Stage._rule_based_stage_analysis lower chat_history.
Proof.
  intros Htext Hfailed. unfold Stage.analyze_conversation_stage.
  destruct chat_history as [|msg rest] eqn:Hh; [done|].
  rewrite <- Hh in *. clear Hh.
  destruct (bool_decide (length chat_history ≤ 2)) eqn:Hshort.
  - apply bool_decide_eq_true in Hshort.
    by rewrite rule_based_short_textual.
  - by rewrite Hfailed.
Qed.

(** The search request, classified while the classifier is down. *)
Lemma X2_search_request_witness :
  Stage.textual Samples.search_request
  ∧ Stage.analyze_conversation_stage ascii_lower Samples.never_answers
      Samples.search_request
    = Stage._rule_based_stage_analysis ascii_lower Samples.search_request.
Proof.
  assert (Stage.textual Samples.search_request) as Htext
    by (repeat constructor; discriminate).
  split; [exact Htext|].
  apply (X2_unavailable_classifier_is_rule_based ascii_lower
           Samples.never_answers Samples.search_request Htext).
  reflexivity.
Defined.

(** X3. The external classifier is only consulted on the contents of the
    last six messages: two classifiers that agree whenever they are shown
    at most six contents (and the true length of the conversation) give
    the same stage. *)
Theorem X3_classifier_sees_six_messages lower
    (gpt gpt' : list pyval → list pyval → nat → Stage.completion)
    (chat_history : list message) :
  (∀ users bots,
     length users + length bots ≤ 6 →
     gpt users bots (length chat_history)
     = gpt' users bots (length chat_history)) →
  Stage.analyze_conversation_stage lower gpt chat_history
  = Stage.analyze_conversation_stage lower gpt' chat_history.
Proof.
  intros Hagree. unfold Stage.analyze_conversation_stage.
  destruct chat_history as [|msg rest] eqn:Hh; [done|].
  rewrite <- Hh in *. clear Hh.
  destruct (bool_decide (length chat_history ≤ 2)); [done|].
  by rewrite Hagree by apply recent_contents_bound.
Qed.

(** Two classifiers that differ only beyond six contents, on the search
    request. *)
Lemma X3_search_request_witness :
  Stage.analyze_conversation_stage ascii_lower Samples.always_closing
    Samples.search_request
  = Stage.analyze_conversation_stage ascii_lower Samples.closing_for_six
      Samples.search_request.
Proof.
  apply (X3_classifier_sees_six_messages ascii_lower Samples.always_closing
           Samples.closing_for_six Samples.search_request).
  intros users bots Hlen. unfold Samples.closing_for_six.
  by rewrite bool_decide_eq_true_2.
Defined.

(** ** Proactive-question gate: stagnation *)

Section StagnationFacts.

Variable lower : pystr → pystr.

(** The threshold 0.6 on the repetition ratio in whole numbers. *)
Lemma repetition_threshold (unique total : nat) :
  0 < total →
  (6 # 10 < 1 - inject_Z (Z.of_nat unique) / inject_Z (Z.of_nat total))%Q
  ↔ 5 * unique < 2 * total.
Proof.
  intros Htotal.
  set (u := inject_Z (Z.of_nat unique)). set (t := inject_Z (Z.of_nat total)).
  assert (0 < t)%Q as Ht.
  { unfold t. change 0%Q with (inject_Z 0). rewrite <- Zlt_Qlt. lia. }
  assert (u / t * t == u)%Q as Hq by (field; lra).
  assert ((6 # 10 < 1 - u / t)%Q ↔ (u / t < 4 # 10)%Q) as -> by (split; lra).
  rewrite <- (Qmult_lt_r (u / t) (4 # 10) t Ht), Hq.
  unfold u, t, Qlt, Qmult, inject_Z. cbn [Qnum Qden]. lia.
Qed.

End StagnationFacts.

(** X4. [_is_conversation_stagnant] answers true exactly when it is given at
    least two messages, all with text contents, whose words are none at all
    or repeat so much that five times the number of distinct words is below
    twice the number of words. *)
Theorem X4_stagnation_in_whole_numbers lower (user_messages : list message) :
  Proactive._is_conversation_stagnant lower user_messages = true
  ↔ 2 ≤ length user_messages
    ∧ ∃ texts,
        mapM (Proactive.content_lower lower) user_messages = Some texts
        ∧ let all_words := Proactive.words_of texts in
          all_words = []
          ∨ 5 * size (list_to_set all_words : gset pystr)
            < 2 * length all_words.
Proof.
  unfold Proactive._is_conversation_stagnant, Proactive.stagnant_try.
  case_bool_decide as Hfew.
  { cbn. split; [done|]. intros [? _]. lia. }
  destruct (mapM (Proactive.content_lower lower) user_messages)
    as [texts|]; cbn [mbind option_bind default from_option id].
  2: { split; [done|]. by intros (_ & texts & ? & _). }
  case_bool_decide as Hempty.
  { cbn. split; [|done]. intros _. split; [lia|]. exists texts.
    split; [done|]. left. by apply length_zero_iff_nil. }
  cbn. unfold Proactive.repetition_ratio.
  rewrite bool_decide_eq_true, repetition_threshold by lia.
  split.
  - intros Hratio. split; [lia|]. exists texts. split; [done|]. by right.
  - intros (_ & texts' & [= <-] & [Hnil|Hratio]); [|done].
    cbn in Hnil. rewrite Hnil in Hempty. done.
Qed.

(** ** Profile store: lazy creation *)

Section CreationFacts.

Import Store.

Lemma next_profile_id_fresh (db : Session) (profile : UserProfile.t) :
  profile ∈ user_profiles db → (UserProfile.id profile < next_profile_id db)%Z.
Proof.
  unfold next_profile_id. generalize (user_profiles db). intros l Hin.
  induction l as [|p l IH]; [by apply elem_of_nil in Hin|].
  cbn. apply elem_of_cons in Hin as [->|Hin]; [lia|].
  specialize (IH Hin). lia.
Qed.

Lemma get_or_create_profile_found (db : Session) (session_id : pystr) (now : Z) :
  let '(db', profile) := get_or_create_profile db session_id now in
  find_profile db' session_id = Some profile
  ∧ UserProfile.session_id profile = session_id.
Proof.
  unfold get_or_create_profile.
  destruct (find_profile db session_id) as [profile|] eqn:Hfind.
  - split; [done|]. unfold find_profile in Hfind.
    apply fmap_Some in Hfind as ([i p] & Hfind & ->).
    by apply list_find_Some in Hfind as (_ & ? & _).
  - unfold _create_user_profile, find_profile in *. cbn [user_profiles].
    apply fmap_None in Hfind.
    split; [|done]. by erewrite list_find_added.
Qed.

End CreationFacts.

(** X5. Reading a profile creates it at most once: a second read of the
    same session changes nothing in the store and returns the same profile
    data, and no read touches the interest or preference rows. *)
Theorem X5_profile_read_is_idempotent (db : Session) (session_id : pystr)
    (now now' : Z) :
  let db1 := fst (Store.get_user_profile db session_id now) in
  Store.get_user_profile db1 session_id now'
  = (db1, snd (Store.get_user_profile db session_id now))
  ∧ user_interests db1 = user_interests db
  ∧ user_preferences db1 = user_preferences db
  ∧ (user_profiles db1 = user_profiles db
     ∨ ∃ profile, Store.find_profile db session_id = None
                  ∧ user_profiles db1 = user_profiles db ++ [profile]).
Proof.
  unfold Store.get_user_profile.
  pose proof (get_or_create_profile_found db session_id now) as Hfound.
  destruct (Store.get_or_create_profile db session_id now) as [db1 profile] eqn:Hcreate.
  destruct Hfound as [Hfound _]. cbn [fst snd].
  split.
  { unfold Store.get_or_create_profile at 1. by rewrite Hfound. }
  unfold Store.get_or_create_profile, Store._create_user_profile in Hcreate.
  destruct (Store.find_profile db session_id) as [p|] eqn:Hfind;
    injection Hcreate as <- <-; cbn; eauto 10.
Qed.

Section CreationBounds.

Import Store.

Lemma length_filter_and_lt {A} (P Q : A → Prop)
    `{!∀ x, Decision (P x)} `{!∀ x, Decision (Q x)} (l : list A) (x : A) :
  x ∈ l → P x → ¬ Q x →
  length (filter (λ y, P y ∧ Q y) l) < length (filter P l).
Proof.
  intros Hin HP HQ.
  rewrite (list_filter_iff (λ y, P y ∧ Q y) (λ y, Q y ∧ P y))
    by (intros y; tauto).
  rewrite <- (list_filter_filter Q P).
  apply (length_filter_lt _ _ x); [by apply list_elem_of_filter|done].
Qed.

End CreationBounds.

(** X6. A profile created for a session gets an identifier above every
    stored one, so identifiers stay distinct; it starts with no
    interaction, and its visit count is at least 1 and at most the number
    of chat sessions stored (or 1 when there is none). *)
Theorem X6_created_profile_is_fresh (db : Session) (session_id : pystr)
    (now : Z) :
  let '(db', profile) := Store._create_user_profile db session_id now in
  (∀ other, other ∈ user_profiles db →
            (UserProfile.id other < UserProfile.id profile)%Z)
  ∧ (NoDup (UserProfile.id <$> user_profiles db) →
     NoDup (UserProfile.id <$> user_profiles db'))
  ∧ UserProfile.total_interactions profile = Some 0%Z
  ∧ (1 ≤ UserProfile.visit_count profile)%Z
  ∧ (UserProfile.visit_count profile
     ≤ Z.max 1 (Z.of_nat (length (chat_sessions db))))%Z.
Proof.
  unfold Store._create_user_profile.
  cbn [UserProfile.id UserProfile.total_interactions UserProfile.visit_count
       user_profiles].
  split; [apply next_profile_id_fresh|].
  split.
  { intros Hnodup. rewrite fmap_app. apply NoDup_app.
    split; [done|]. split; [|apply NoDup_singleton].
    intros n (other & Hn & Hother)%list_elem_of_fmap
      Hnew%list_elem_of_singleton.
    pose proof (next_profile_id_fresh db other Hother). cbn in Hnew. lia. }
  split; [done|].
  destruct (list_find _ (chat_sessions db)) as [[i session]|] eqn:Hfind;
    cbn [fmap option_fmap option_map snd]; [|lia].
  destruct (ChatSession.ip_address session) as [[|c ip]|] eqn:Hip; [lia| |lia].
  apply list_find_Some in Hfind as (Hi & _ & _).
  assert (¬ (ChatSession.created_at session
             < ChatSession.created_at session)%Z) as Hirreflexive by lia.
  pose proof (length_filter_and_lt
                (λ s, ChatSession.ip_address s = Some (c :: ip))
                (λ s, (ChatSession.created_at s
                       < ChatSession.created_at session)%Z)
                (chat_sessions db) session
                (list_elem_of_lookup_2 _ _ _ Hi) Hip Hirreflexive) as Hlt.
  pose proof (length_filter
                (λ s, ChatSession.ip_address s = Some (c :: ip))
                (chat_sessions db)).
  cbv beta in Hlt. unfold pystr in *. lia.
Qed.

(** ** Profile store: one row per interest *)

Section UniquenessFacts.

Import Store.

Implicit Types (rows pending : list UserInterest.t).

Lemma unique_insert rows (i : nat) (old new : UserInterest.t) :
  Laws.interest_rows_unique rows →
  rows !! i = Some old →
  UserInterest.profile_id new = UserInterest.profile_id old →
  UserInterest.interest new = UserInterest.interest old →
  Laws.interest_rows_unique (<[i := new]> rows).
Proof.
  intros Hunique Hi Hpid Hname profile_id interest_name.
  rewrite (length_filter_insert _ rows i old new Hi); [apply Hunique|].
  by rewrite Hpid, Hname.
Qed.

Lemma unique_added rows (new : UserInterest.t) :
  Laws.interest_rows_unique rows →
  filter (λ row, UserInterest.profile_id row = UserInterest.profile_id new
                 ∧ UserInterest.interest row = UserInterest.interest new)
    rows = [] →
  Laws.interest_rows_unique (rows ++ [new]).
Proof.
  intros Hunique Hnone profile_id interest_name.
  rewrite filter_app, length_app, filter_cons, filter_nil.
  case_decide as Hkey; cbn [length]; [|specialize (Hunique profile_id interest_name); lia].
  destruct Hkey as [<- <-]. by rewrite Hnone.
Qed.

Lemma upsert_interest_invariant (profile_id now : Z) (seen : list pystr)
    (st : list UserInterest.t * list UserInterest.t) (interest_name : pystr) :
  interest_name ∉ seen →
  Laws.loop_invariant profile_id seen st →
  Laws.loop_invariant profile_id (seen ++ [interest_name])
    (upsert_interest profile_id now st interest_name).
Proof.
  destruct st as [rows pending]. intros Hfresh [Hunique Hpending].
  unfold upsert_interest, Laws.loop_invariant in *. cbn [fst snd] in *.
  destruct (find_interest rows profile_id interest_name)
    as [[i existing]|] eqn:Hfind; cbn [fst snd]; unfold find_interest in Hfind.
  - apply list_find_Some in Hfind as (Hi & _ & _). split.
    + rewrite <- insert_app_l by eauto using lookup_lt_Some.
      eapply unique_insert; [done|by apply lookup_app_l_Some|done|done].
    + intros row Hrow. destruct (Hpending row Hrow) as [? ?].
      split; [done|]. apply elem_of_app. by left.
  - apply list_find_None in Hfind. split.
    + rewrite app_assoc. apply unique_added; [done|].
      cbn [UserInterest.profile_id UserInterest.interest].
      apply filter_none, Forall_app. split; [done|].
      apply Forall_forall. intros row Hrow [_ Hname].
      destruct (Hpending row Hrow) as [_ Hseen]. by rewrite Hname in Hseen.
    + intros row [Hrow | ->%list_elem_of_singleton]%elem_of_app.
      * destruct (Hpending row Hrow) as [? ?].
        split; [done|]. apply elem_of_app. by left.
      * split; [done|]. apply elem_of_app. right. by apply list_elem_of_singleton.
Qed.

Lemma upsert_interests_invariant (profile_id now : Z)
    (names seen : list pystr) (st : list UserInterest.t * list UserInterest.t) :
  NoDup (seen ++ names) →
  Laws.loop_invariant profile_id seen st →
  Laws.loop_invariant profile_id (seen ++ names)
    (foldl (upsert_interest profile_id now) st names).
Proof.
  revert seen st. induction names as [|name names IH]; intros seen st Hnodup Hinv.
  { by rewrite app_nil_r. }
  cbn [foldl].
  rewrite (assoc_L (++) seen [name] names : seen ++ name :: names
                                            = (seen ++ [name]) ++ names) in *.
  apply IH; [done|]. apply upsert_interest_invariant; [|done].
  apply NoDup_app in Hnodup as (Hseen & _ & _).
  apply NoDup_app in Hseen as (_ & Hdisjoint & _).
  intros Hin. apply (Hdisjoint name Hin). by apply list_elem_of_singleton.
Qed.

End UniquenessFacts.

(** X7. One row per interest is an invariant of both upserts: if the table
    holds at most one row per (profile, name), it still does after
    [update_user_interest], and after [_update_interests_db] on a list of
    names without repetition. *)
Theorem X7_interest_rows_stay_unique (db : Session) :
  Laws.interest_rows_unique (user_interests db) →
  (∀ profile_id names now,
     NoDup names →
     Laws.interest_rows_unique
       (user_interests (Store._update_interests_db db profile_id names now)))
  ∧ (∀ session_id interest confidence source now,
       Laws.interest_rows_unique
         (user_interests (Store.update_user_interest db session_id interest
                            confidence source now))).
Proof.
  intros Hunique. split.
  - intros profile_id names now Hnodup. unfold Store._update_interests_db.
    pose proof (upsert_interests_invariant profile_id now names []
                  (user_interests db, []) Hnodup) as Hinv.
    destruct (foldl _ _ names) as [rows pending]. cbn [user_interests].
    apply Hinv. split; cbn [fst snd]; [by rewrite app_nil_r|].
    intros row Hrow. by apply elem_of_nil in Hrow.
  - intros session_id interest confidence source now.
    unfold Store.update_user_interest.
    assert (user_interests
              (Store.get_or_create_profile db session_id now).1
            = user_interests db) as Hsame.
    { unfold Store.get_or_create_profile, Store._create_user_profile.
      by destruct (Store.find_profile db session_id). }
    destruct (Store.get_or_create_profile db session_id now) as [db1 profile].
    cbn [fst] in Hsame. cbn [user_interests]. rewrite Hsame.
    destruct (Store.find_interest (user_interests db) (UserProfile.id profile)
                interest) as [[i existing]|] eqn:Hfind;
      unfold Store.find_interest in Hfind.
    + apply list_find_Some in Hfind as (Hi & _ & _).
      by eapply unique_insert.
    + apply list_find_None in Hfind.
      apply unique_added; [done|]. by apply filter_none.
Qed.

(** The sample store holds one row; it stays at one row per interest when
    "音樂" and "藝術" are upserted. *)
Lemma X7_music_store_witness :
  Laws.interest_rows_unique (user_interests Samples.music_store)
  ∧ Laws.interest_rows_unique
      (user_interests
         (Store._update_interests_db Samples.music_store 1
            [py "音樂"; py "藝術"] 5))
  ∧ Laws.interest_rows_unique
      (user_interests
         (Store.update_user_interest Samples.music_store (py "s1")
            (py "音樂") (9 # 10) (py "explicit") 5)).
Proof.
  assert (Laws.interest_rows_unique (user_interests Samples.music_store))
    as Hunique.
  { intros profile_id interest_name. cbn [user_interests Samples.music_store].
    rewrite filter_cons, filter_nil. case_decide; cbn [length]; lia. }
  assert (NoDup [py "音樂"; py "藝術"]) as Hnames.
  { apply NoDup_cons. split; [|apply NoDup_singleton].
    intros Hin%list_elem_of_singleton. vm_compute in Hin. discriminate Hin. }
  destruct (X7_interest_rows_stay_unique Samples.music_store Hunique)
    as [Hloop Hsingle].
  split; [exact Hunique|]. split; [by apply Hloop|apply Hsingle].
Defined.

Section RepeatedNames.

Import Store.

Lemma upsert_unknown_repeatedly (profile_id now : Z) (interest_name : pystr)
    (rows pending : list UserInterest.t) (k : nat) :
  find_interest rows profile_id interest_name = None →
  foldl (upsert_interest profile_id now) (rows, pending)
    (replicate k interest_name)
  = (rows,
     pending ++ replicate k (UserInterest.Make profile_id interest_name
                               (7 # 10) (py "conversation") now now)).
Proof.
  intros Hnone. revert pending.
  induction k as [|k IH]; intros pending; cbn [replicate foldl].
  { by rewrite app_nil_r. }
  unfold upsert_interest at 2. rewrite Hnone, IH.
  by rewrite <- app_assoc.
Qed.

End RepeatedNames.

(** X8. The loop of [_update_interests_db] does not see the rows it has
    added itself: a name that is not stored yet and is listed [k] times in
    one call gets [k] rows, each with confidence 0.7. *)
Theorem X8_repeated_name_is_stored_repeatedly (db : Session) (profile_id : Z)
    (interest_name : pystr) (now : Z) (k : nat) :
  Store.find_interest (user_interests db) profile_id interest_name = None →
  filter (λ row, UserInterest.profile_id row = profile_id
                 ∧ UserInterest.interest row = interest_name)
    (user_interests
       (Store._update_interests_db db profile_id
          (replicate k interest_name) now))
  = replicate k (UserInterest.Make profile_id interest_name (7 # 10)
                   (py "conversation") now now).
Proof.
  intros Hnone. unfold Store._update_interests_db.
  rewrite upsert_unknown_repeatedly by done. cbn [user_interests app].
  unfold Store.find_interest in Hnone. apply list_find_None in Hnone.
  rewrite filter_app, (filter_none _ _ Hnone). cbn [app].
  induction k as [|k IH]; cbn [replicate]; [done|].
  by rewrite filter_cons_True, IH.
Qed.

(** "藝術", not stored for the sample profile, listed twice in one call. *)
Lemma X8_art_twice_witness :
  Store.find_interest (user_interests Samples.music_store) 1 (py "藝術") = None
  ∧ length (filter (λ row, UserInterest.profile_id row = 1%Z
                           ∧ UserInterest.interest row = py "藝術")
              (user_interests
                 (Store._update_interests_db Samples.music_store 1
                    (replicate 2 (py "藝術")) 5)))
    = 2.
Proof.
  assert (Store.find_interest (user_interests Samples.music_store) 1
            (py "藝術") = None) as Hnone by (vm_compute; reflexivity).
  split; [exact Hnone|].
  by rewrite (X8_repeated_name_is_stored_repeatedly Samples.music_store 1
                (py "藝術") 5 2 Hnone).
Defined.

(** ** Text: what [in] means *)

Section ContainsFacts.

Lemma starts_with_prefix (p s : pystr) :
  starts_with p s = true ↔ ∃ t, s = p ++ t.
Proof.
  revert s. induction p as [|a p IH]; intros s; cbn.
  { split; [intros _; by exists s|done]. }
  destruct s as [|b s].
  { split; [done|]. by intros [t [=]]. }
  rewrite andb_true_iff, N.eqb_eq, IH. split.
  - intros [-> [t ->]]. by exists t.
  - intros [t [= -> ->]]. eauto.
Qed.

Lemma contains_infix (needle hay : pystr) :
  contains needle hay = true ↔ ∃ pre post, hay = pre ++ needle ++ post.
Proof.
  induction hay as [|c hay IH]; cbn [contains].
  - rewrite orb_false_r, starts_with_prefix. split.
    + intros [t Ht]. by exists [], t.
    + intros (pre & post & Heq). destruct pre; [by exists post|done].
  - rewrite orb_true_iff, starts_with_prefix, IH. split.
    + intros [[t Ht]|(pre & post & ->)]; [by exists [], t|].
      by exists (c :: pre), post.
    + intros ([|c' pre] & post & Heq).
      * left. by exists post.
      * right. injection Heq as -> ->. eauto.
Qed.

(** A text that contains a keyword contains every part of it. *)
Lemma contains_part (before part after hay : pystr) :
  contains (before ++ part ++ after) hay = true → contains part hay = true.
Proof.
  rewrite !contains_infix. intros (pre & post & ->).
  exists (pre ++ before), (after ++ post). by rewrite <- !app_assoc.
Qed.

(** A text that contains a keyword contains its code points. *)
Lemma contains_code_point (needle hay : pystr) (c : N) :
  contains needle hay = true → c ∈ needle → c ∈ hay.
Proof.
  rewrite contains_infix. intros (pre & post & ->) Hc.
  rewrite !elem_of_app. auto.
Qed.

Lemma any_in_true (text : pystr) (keywords : list pystr) :
  any_in text keywords = true
  ↔ ∃ keyword, keyword ∈ keywords ∧ contains keyword text = true.
Proof.
  unfold any_in. rewrite existsb_exists.
  split; intros (k & Hk & Hc); exists k; split; try done;
    by apply list_elem_of_In.
Qed.

End ContainsFacts.

(** ** Stage transitions *)

Lemma valid_stage_cases (stage : pystr) :
  stage ∈ Stage.valid_stages →
  stage = py "opening" ∨ stage = py "exploring" ∨ stage = py "clarifying"
  ∨ stage = py "searching" ∨ stage = py "recommending"
  ∨ stage = py "deciding" ∨ stage = py "closing".
Proof.
  unfold Stage.valid_stages. cbn [fmap list_fmap].
  rewrite !elem_of_cons, elem_of_nil. tauto.
Qed.

(** X9. A stage transition never moves a conversation backwards: from a
    valid stage, [should_transition_stage] answers a valid stage that is
    the same stage when no transition is reported, and otherwise the next
    stage of the course or [closing]. *)
Theorem X9_transition_moves_forward lower
    (current_stage user_message bot_response : pystr) :
  current_stage ∈ Stage.valid_stages →
  let '(transition, stage) :=
    Transition.should_transition_stage lower current_stage user_message
      bot_response in
  stage ∈ Stage.valid_stages
  ∧ (transition = false → stage = current_stage)
  ∧ (transition = true →
     stage = py "closing"
     ∨ ∃ n, Transition.stage_rank current_stage = Some n
            ∧ Transition.stage_rank stage = Some (S n)).
Proof.
  intros Hvalid. unfold Transition.should_transition_stage.
  destruct (valid_stage_cases _ Hvalid)
    as [->|[->|[->|[->|[->|[->| ->]]]]]];
    match goal with
    | |- context [Transition.rule_of ?s] =>
      let r := eval vm_compute in (Transition.rule_of s) in
      change (Transition.rule_of s) with r
    end; cbv beta iota;
    repeat match goal with
    | |- context [any_in ?t ?k] => destruct (any_in t k)
    end;
    (split; [by apply valid_stage_by_computation|]);
    (split; [done|]); intros Hmoved;
    first [ discriminate Hmoved
          | by left
          | right; eexists; split; lazy; reflexivity ].
Qed.

(** An opening message that asks for activities. *)
Lemma X9_opening_witness :
  py "opening" ∈ Stage.valid_stages
  ∧ let '(transition, stage) :=
      Transition.should_transition_stage ascii_lower (py "opening")
        (py "我想找活動") (py "好的") in
    stage ∈ Stage.valid_stages
    ∧ (transition = false → stage = py "opening")
    ∧ (transition = true →
       stage = py "closing"
       ∨ ∃ n, Transition.stage_rank (py "opening") = Some n
              ∧ Transition.stage_rank stage = Some (S n)).
Proof.
  assert (py "opening" ∈ Stage.valid_stages) as Hvalid
    by (by apply valid_stage_by_computation).
  split; [exact Hvalid|].
  exact (X9_transition_moves_forward ascii_lower (py "opening")
           (py "我想找活動") (py "好的") Hvalid).
Defined.

(** ** Sentiment fallback *)

(** X10. The sentiment fallback tests its keyword lists in a fixed order,
    and three keywords are shadowed by shorter ones of an earlier list: a
    message that says "不好" (a keyword of [negative]) or "太棒了" (a
    keyword of [excited]) is classified [positive], and a message that says
    "煩惱" (a keyword of [frustrated]) is never classified [frustrated]. *)
Theorem X10_shadowed_sentiment_keywords lower (message : pystr) :
  (contains (py "不好") (lower message) = true →
   Sentiment._fallback_sentiment_analysis lower message = py "positive")
  ∧ (contains (py "太棒了") (lower message) = true →
     Sentiment._fallback_sentiment_analysis lower message = py "positive")
  ∧ (contains (py "煩惱") (lower message) = true →
     Sentiment._fallback_sentiment_analysis lower message ≠ py "frustrated").
Proof.
  unfold Sentiment._fallback_sentiment_analysis.
  assert (∀ keyword, keyword ∈ Sentiment.positive_keywords →
            contains keyword (lower message) = true →
            any_in (lower message) Sentiment.positive_keywords = true)
    as Hpositive by (intros keyword ? ?; apply any_in_true; eauto).
  assert (∀ keyword, keyword ∈ Sentiment.negative_keywords →
            contains keyword (lower message) = true →
            any_in (lower message) Sentiment.negative_keywords = true)
    as Hnegative by (intros keyword ? ?; apply any_in_true; eauto).
  split; [|split].
  - intros Hsaid.
    rewrite (Hpositive (py "好")); [done|by vm_compute; left|].
    apply (contains_part (py "不") (py "好") []). exact Hsaid.
  - intros Hsaid.
    rewrite (Hpositive (py "棒")); [done|by vm_compute; right; left|].
    apply (contains_part (py "太") (py "棒") (py "了")). exact Hsaid.
  - intros Hsaid.
    assert (any_in (lower message) Sentiment.negative_keywords = true) as ->.
    { apply (Hnegative (py "煩"));
        [vm_compute; do 6 right; by left|].
      apply (contains_part [] (py "煩") (py "惱")). exact Hsaid. }
    destruct (any_in _ Sentiment.positive_keywords);
      [intros H; vm_compute in H; discriminate H|].
    destruct (any_in _ Sentiment.excited_keywords);
      intros H; vm_compute in H; discriminate H.
Qed.

(** "This activity is not good." *)
Lemma X10_not_good_witness :
  contains (py "不好") (ascii_lower (py "這個活動不好")) = true
  ∧ Sentiment._fallback_sentiment_analysis ascii_lower (py "這個活動不好")
    = py "positive".
Proof.
  assert (contains (py "不好") (ascii_lower (py "這個活動不好")) = true)
    as Hsaid by (vm_compute; reflexivity).
  split; [exact Hsaid|].
  exact (proj1 (X10_shadowed_sentiment_keywords ascii_lower
                  (py "這個活動不好")) Hsaid).
Defined.

(** ** Personalized recommendations: the suggested categories *)

(** X11. The suggested categories of a recommendation are the names of
    the three interests of highest confidence (of all of them when the
    profile has fewer): the interests split into the suggested ones and the
    rest, and no interest of the rest has a higher confidence than a
    suggested one. *)
Theorem X11_top_three_categories (profile_data : ProfileData.t)
    (recommendations : Store.Recommendations.t) :
  Store.recommendations_try profile_data = Some recommendations →
  ∃ top rest,
    top ++ rest ≡ₚ ProfileData.interests profile_data
    ∧ Store.Recommendations.suggested_categories recommendations
      = InterestDict.interest <$> top
    ∧ length top = min 3 (length (ProfileData.interests profile_data))
    ∧ ∀ a b, a ∈ top → b ∈ rest →
             (InterestDict.confidence b <= InterestDict.confidence a)%Q.
Proof.
  intros Htry.
  set (sorted := Store.sorted_by_confidence (ProfileData.interests profile_data)).
  assert (sorted ≡ₚ ProfileData.interests profile_data) as Hperm
    by apply sorted_by_confidence_permutation.
  exists (take 3 sorted), (drop 3 sorted).
  split; [by rewrite take_drop|].
  split.
  { unfold Store.recommendations_try in Htry. cbv zeta in Htry.
    apply bind_Some in Htry as (social & _ & Htry).
    apply bind_Some in Htry as (personalized_message & _ & Htry).
    injection Htry as <-.
    cbn [Store.Recommendations.suggested_categories].
    subst sorted. by destruct (ProfileData.interests profile_data). }
  split.
  { rewrite length_take, (Permutation_length Hperm). lia. }
  intros a b Ha Hb.
  pose proof (sorted_by_confidence_descending
                (ProfileData.interests profile_data)) as Hsorted.
  fold sorted in Hsorted. unfold Store.descending in Hsorted.
  rewrite <- (take_drop 3 sorted) in Hsorted.
  by apply (StronglySorted_app_1_elem_of _ _ _ a b Hsorted).
Qed.

(** Four interests, of which the three best are suggested. *)
Lemma X11_four_interests_witness :
  ∃ recommendations,
    Store.recommendations_try Samples.four_interests_profile
    = Some recommendations
    ∧ Store.Recommendations.suggested_categories recommendations
      = [py "美食"; py "藝術"; py "運動"]
    ∧ ∃ top rest,
        top ++ rest ≡ₚ Samples.four_interests
        ∧ Store.Recommendations.suggested_categories recommendations
          = InterestDict.interest <$> top
        ∧ length top = 3
        ∧ ∀ a b, a ∈ top → b ∈ rest →
                 (InterestDict.confidence b <= InterestDict.confidence a)%Q.
Proof.
  destruct (Store.recommendations_try Samples.four_interests_profile)
    as [recommendations|] eqn:Htry; [|vm_compute in Htry; discriminate Htry].
  exists recommendations. split; [reflexivity|].
  split; [vm_compute in Htry; by injection Htry as <-|].
  exact (X11_top_three_categories Samples.four_interests_profile
           recommendations Htry).
Defined.

(** ** Interest fallback *)

Lemma technology_entry (entry : pystr * list pystr) :
  entry ∈ Interests.interest_keywords → entry.1 = py "科技創新" →
  ∀ keyword, keyword ∈ entry.2 →
             keyword = py "AI" ∨ keyword ∈ Interests.technology_keywords.
Proof.
  unfold Interests.interest_keywords.
  rewrite !elem_of_cons, elem_of_nil.
  intros [->|[->|[->|[->|[->|[->|[->|[->|[->|[]]]]]]]]]] Hname;
    try (vm_compute in Hname; discriminate Hname).
  intros keyword. unfold Interests.technology_keywords.
  cbn [snd fmap list_fmap].
  rewrite !elem_of_cons, elem_of_nil. tauto.
Qed.

(** X12. The keyword "AI" of the technology category is written in
    capitals but tested against the lower-cased message, so it never
    matches: a message that contains none of the other technology keywords
    is never given the interest "科技創新". *)
Theorem X12_capital_keyword_never_matches lower (message : pystr) :
  Interests.lowers_capital_a lower →
  any_in (lower message) Interests.technology_keywords = false →
  py "科技創新" ∉ Interests._fallback_interest_analysis lower message.
Proof.
  intros Hlower Hnone Hin.
  unfold Interests._fallback_interest_analysis in Hin.
  apply (subseteq_take 3) in Hin. unfold Interests.detect in Hin.
  apply list_elem_of_fmap in Hin as (entry & Hname & Hentry).
  apply list_elem_of_filter in Hentry as [Hmatch Hentry].
  apply any_in_true in Hmatch as (keyword & Hkeyword & Hcontained).
  assert (keyword = py "AI" ∨ keyword ∈ Interests.technology_keywords)
    as [->|Hother].
    by (by apply (technology_entry entry Hentry (eq_sym Hname))).
  - apply (Hlower message).
    apply (contains_code_point _ _ 65%N Hcontained).
    vm_compute. by left.
  - assert (any_in (lower message) Interests.technology_keywords = true)
      as Hsome by (apply any_in_true; eauto).
    congruence.
Qed.

Lemma ascii_lower_lowers_capital_a : Interests.lowers_capital_a ascii_lower.
Proof.
  intros s Hin. unfold ascii_lower in Hin.
  apply list_elem_of_fmap in Hin as (c & Hc & _).
  destruct ((65 <=? c)%N && (c <=? 90)%N) eqn:Hrange.
  - apply andb_true_iff in Hrange as [Hlow%N.leb_le _]. lia.
  - subst c. vm_compute in Hrange. discriminate Hrange.
Qed.

(** A message about an "AI workshop". *)
Lemma X12_ai_workshop_witness :
  Interests.lowers_capital_a ascii_lower
  ∧ any_in (ascii_lower (py "AI workshop")) Interests.technology_keywords
    = false
  ∧ py "科技創新"
    ∉ Interests._fallback_interest_analysis ascii_lower (py "AI workshop").
Proof.
  assert (any_in (ascii_lower (py "AI workshop"))
            Interests.technology_keywords = false) as Hnone
    by (vm_compute; reflexivity).
  split; [exact ascii_lower_lowers_capital_a|]. split; [exact Hnone|].
  exact (X12_capital_keyword_never_matches ascii_lower (py "AI workshop")
           ascii_lower_lowers_capital_a Hnone).
Defined.
